(** * RSDiX-CLIP: the caption-evaluation driver [eval_clipcap.py]

    A shallow embedding of [export_metrics], [eval_model] and [main], and the
    properties of the driver's glue logic: argument validation, the metric
    accumulation loops, caption export and import, and the scores file.

    The driver is orchestration around external libraries (the CLIP/GPT2
    model, the metric library, the JSON codec, the operating system).  Those
    are collected in the class [Externals]; the driver's own code is
    transcribed statement by statement into a state-and-exception monad over
    a [world] made of a file name space, the global random-generator state and
    a log of the external calls made so far.  Progress output ([print],
    [tqdm]) has no influence on any result and is left out. *)

From Stdlib Require Import ZArith QArith Qround Qabs DecimalString List Ascii Bool Lia.
From stdpp Require Import base gmap strings list.

Local Open Scope Z_scope.

(** ** Python values *)

(** Values that travel through [json.dump] / [json.load]: the caption
    records, their fields, and whatever an imported file may hold. *)
#[warnings="-register-all"]
Inductive json :=
| JNull
| JBool (b : bool)
| JInt (z : Z)
| JStr (s : string)
| JArr (items : list json)
| JObj (fields : list (string * json)).

(** Exceptions the driver and the modelled library calls can raise. *)
Inductive exn :=
| Exception (msg : string)
| IndexError
| KeyError (key : json)
| TypeError
| ValueError
| FileNotFoundError (path : string)
| FileExistsError (path : string)
| IsADirectoryError (path : string)
| JSONDecodeError
| LibraryError (callee : string).

Inductive result (A : Type) :=
| Ok (a : A)
| Raise (e : exn).
Arguments Ok {A} a.
Arguments Raise {A} e.

Definition json_of_strs (l : list string) : json := JArr (map JStr l).

(** One-character strings used by the format strings of the source. *)
Definition tab : string := String (ascii_of_nat 9) EmptyString.
Definition newline : string := String (ascii_of_nat 10) EmptyString.

Definition str_len (s : string) : Z := Z.of_nat (String.length s).

(** [s.endswith(suffix)] *)
Definition endswith (s suffix : string) : bool :=
  (String.length suffix <=? String.length s)%nat
  && String.eqb
       (String.substring (String.length s - String.length suffix)
                         (String.length suffix) s)
       suffix.

(** [s.startswith(prefix)] *)
Definition startswith (s pre : string) : bool := String.prefix pre s.

(** A Python sequence index: negative indices count from the end; [None]
    stands for "out of range". *)
Definition norm_index (len i : Z) : option nat :=
  let j := if i <? 0 then i + len else i in
  if (0 <=? j) && (j <? len) then Some (Z.to_nat j) else None.

(** [l[i] = x] on a Python list. *)
Definition list_setitem {A} (l : list A) (i : Z) (x : A) : result (list A) :=
  match norm_index (Z.of_nat (length l)) i with
  | Some n => Ok (<[n := x]> l)
  | None => Raise IndexError
  end.

(** [l[i]] on a Python list. *)
Definition list_getitem {A} (l : list A) (i : Z) : result A :=
  match norm_index (Z.of_nat (length l)) i with
  | Some n => match l !! n with Some x => Ok x | None => Raise IndexError end
  | None => Raise IndexError
  end.

Fixpoint assoc_get {A} (d : list (string * A)) (k : string) : option A :=
  match d with
  | [] => None
  | (k', v) :: d' => if String.eqb k' k then Some v else assoc_get d' k
  end.

(** [d[k] = v] on a Python dict: an existing key keeps its position. *)
Fixpoint dict_set {A} (d : list (string * A)) (k : string) (v : A)
  : list (string * A) :=
  match d with
  | [] => [(k, v)]
  | (k', v') :: d' =>
      if String.eqb k' k then (k', v) :: d' else (k', v') :: dict_set d' k v
  end.

(** [len(v)] *)
Definition py_len (v : json) : result Z :=
  match v with
  | JStr s => Ok (str_len s)
  | JArr l => Ok (Z.of_nat (length l))
  | JObj d => Ok (Z.of_nat (length d))
  | _ => Raise TypeError
  end.

(** [v[i]] for an integer [i].  A JSON object has string keys only, so an
    integer subscript is a missing key. *)
Definition py_getitem_int (v : json) (i : Z) : result json :=
  match v with
  | JArr l => list_getitem l i
  | JStr s =>
      match norm_index (str_len s) i with
      | Some n => Ok (JStr (String.substring n 1 s))
      | None => Raise IndexError
      end
  | JObj _ => Raise (KeyError (JInt i))
  | _ => Raise TypeError
  end.

(** [v[k]] for a string [k]. *)
Definition py_getitem_str (v : json) (k : string) : result json :=
  match v with
  | JObj d => match assoc_get d k with
              | Some x => Ok x
              | None => Raise (KeyError (JStr k))
              end
  | _ => Raise TypeError
  end.

(** [format(v, "s")]: only a [str] accepts the format code [s]; numbers
    reject the code, the other types reject any format string. *)
Definition format_s (v : json) : result string :=
  match v with
  | JStr s => Ok s
  | JInt _ | JBool _ => Raise ValueError
  | _ => Raise TypeError
  end.

(** A command-line value that [argparse] delivers as a list ([nargs='*'])
    and that [main] replaces by its only element when it has exactly one. *)
Inductive strs :=
| Single (s : string)
| Several (l : list string).

Definition strs_len (v : strs) : Z :=
  match v with
  | Single s => str_len s
  | Several l => Z.of_nat (length l)
  end.

(** [v[0]], used by [main] only where [len(v) == 1]. *)
Definition strs_first (v : strs) : strs :=
  match v with
  | Single s => Single (String.substring 0 1 s)
  | Several l => Single (hd EmptyString l)
  end.

(** ** POSIX paths *)

(** [os.path.join(a, b)] *)
Definition path_join (a b : string) : string :=
  if startswith b "/" then b
  else if (String.length a =? 0)%nat || endswith a "/" then a +:+ b
  else a +:+ "/" +:+ b.

(** ** Plain names

    The names the system resolves exactly as they are spelled, so that two
    different strings name two different files. *)

(** Does the character occur in the text? *)
Fixpoint has_char (c : ascii) (s : string) : bool :=
  match s with
  | EmptyString => false
  | String c' s' => Ascii.eqb c' c || has_char c s'
  end.

(** [p.split("/")] *)
Fixpoint components (p : string) : list string :=
  match p with
  | EmptyString => [EmptyString]
  | String c p' =>
      if Ascii.eqb c "/" then EmptyString :: components p'
      else match components p' with
           | [] => [String c EmptyString]
           | x :: xs => String c x :: xs
           end
  end.

(** A file name the system takes as it is: not empty, not [.] or [..], of
    at most [NAME_MAX] bytes, without ["/"] and without a null byte. *)
Definition plain_component (c : string) : bool :=
  negb (String.eqb c EmptyString) && negb (String.eqb c ".")
  && negb (String.eqb c "..")
  && (String.length c <=? 255)%nat
  && negb (has_char "/" c) && negb (has_char (ascii_of_nat 0) c).

(** [os.path.isabs(p)] *)
Definition is_abs (p : string) : bool := startswith p "/".

(** The components of a path below the root or the working directory. *)
Definition steps (p : string) : list string :=
  match components p with
  | EmptyString :: c :: cs => c :: cs
  | cs => cs
  end.

(** A path made of plain components separated by single ["/"], with or
    without a leading ["/"], without a trailing one, shorter than
    [PATH_MAX]. *)
Definition plain_path (p : string) : bool :=
  (String.length p <=? 4095)%nat && forallb plain_component (steps p).

(** The directory a plain path lies in; [None] for a path directly below
    the root or the working directory. *)
Definition parent (p : string) : option string :=
  match removelast (components p) with
  | [] | [EmptyString] => None
  | cs => Some (String.concat "/" cs)
  end.

(** ** The command line *)

Record Args := {
  seed : Z;
  scores_dir : string;
  scores_file : string;
  model_pth : option string;
  model_basename : option string;
  processor : string;
  use_beam_search : bool;
  metrics : list string;
  no_splits : bool;
  no_evaluation : bool;
  export_captions : bool;
  captions_export_file : string;
  captions_import_file : option string;
  annotations_files : strs;
  img_dirs : strs;
  splits : strs
}.

Definition set_splits (a : Args) (v : strs) : Args :=
  {| seed := seed a; scores_dir := scores_dir a; scores_file := scores_file a;
     model_pth := model_pth a; model_basename := model_basename a;
     processor := processor a; use_beam_search := use_beam_search a;
     metrics := metrics a; no_splits := no_splits a;
     no_evaluation := no_evaluation a; export_captions := export_captions a;
     captions_export_file := captions_export_file a;
     captions_import_file := captions_import_file a;
     annotations_files := annotations_files a; img_dirs := img_dirs a;
     splits := v |}.

Definition set_annotations_files (a : Args) (v : strs) : Args :=
  {| seed := seed a; scores_dir := scores_dir a; scores_file := scores_file a;
     model_pth := model_pth a; model_basename := model_basename a;
     processor := processor a; use_beam_search := use_beam_search a;
     metrics := metrics a; no_splits := no_splits a;
     no_evaluation := no_evaluation a; export_captions := export_captions a;
     captions_export_file := captions_export_file a;
     captions_import_file := captions_import_file a;
     annotations_files := v; img_dirs := img_dirs a;
     splits := splits a |}.

Definition set_img_dirs (a : Args) (v : strs) : Args :=
  {| seed := seed a; scores_dir := scores_dir a; scores_file := scores_file a;
     model_pth := model_pth a; model_basename := model_basename a;
     processor := processor a; use_beam_search := use_beam_search a;
     metrics := metrics a; no_splits := no_splits a;
     no_evaluation := no_evaluation a; export_captions := export_captions a;
     captions_export_file := captions_export_file a;
     captions_import_file := captions_import_file a;
     annotations_files := annotations_files a; img_dirs := v;
     splits := splits a |}.

(** ** The evaluation data and the external libraries *)

(** One record of the assembled dataset: [ds[i][IMAGE_FIELD]],
    [ds[i][RAW_CAPTION_FIELD]] and [ds[i]["filename"]]. *)
Record Sample (Img : Type) := {
  image : Img;
  raw_captions : list string;
  filename : string
}.
Arguments image {Img} _.
Arguments raw_captions {Img} _.
Arguments filename {Img} _.

(** What the driver imports and does not define.  Each call is a function of
    its arguments and, where the library draws random numbers, of the global
    generator state [Rng], which it hands back.  For the two loading calls
    [None] is a call that raised inside the library; the other calls are
    taken to return.  [Value] is the type of a metric value (a Python float);
    the accumulator is a [dict] from metric name to [Value], in insertion
    order. *)
Class Externals := {
  Model : Type;
  Processor : Type;
  Image : Type;
  Tensor : Type;
  Rng : Type;
  Value : Type;
  (** the float [0.0] *)
  zero : Value;
  (** ["{:.3f}".format(value)] *)
  format_3f : Value -> string;
  (** [lightning.seed_everything]: the generator state a seed installs *)
  seed_state : Z -> Rng;
  (** [evaluation.utils.get_model_basename] *)
  get_model_basename : string -> string;
  (** [evaluation.utils.get_splits_for_evaluation] *)
  get_splits_for_evaluation :
    strs -> strs -> strs -> bool -> Rng -> list (Sample Image) * Rng;
  (** [evaluation.utils.compute_captioning_metrics], with the arguments
      [preds], [reference_captions], [avg_metrics], [i], [no_meteor_count] *)
  compute_captioning_metrics :
    json -> json -> list (string * Value) -> Z -> Z -> list (string * Value);
  (** [models.clipcap.generate_caption] on the model's encoder, tokenizer
      and decoder *)
  generate_caption : Tensor -> Model -> bool -> Rng -> list string * Rng;
  (** the [CLIPProcessor] call on one image, moved to the model's device *)
  preprocess : Processor -> Image -> Model -> Tensor;
  (** [RSDClipCap.load_from_checkpoint] *)
  load_from_checkpoint : string -> option Model;
  (** [CLIPProcessor.from_pretrained] *)
  from_pretrained : string -> option Processor;
  (** the text [json.dump] writes for a document, and [json.load] on a text *)
  json_dumps : json -> string;
  json_loads : string -> option json
}.

(** The external calls the log records. *)
Inductive event :=
| EvSeed (s : Z)
| EvLoadCheckpoint (pth : string)
| EvFromPretrained (name : string)
| EvGetSplits (annotations img_dirs splits : strs) (use_splits : bool)
| EvGenerate (i : nat) (preds : list string)
| EvMetrics (i : Z) (no_meteor_count : Z) (preds reference_captions : json).

(** What a path names: a directory, a text file, or a file holding the JSON
    document [json.dump] wrote ([json.load] gives that document back). *)
Inductive node :=
| Dir
| FText (s : string)
| FJson (j : json).

Inductive open_mode := ModeW | ModeA.

(** ** Name spaces that are trees

    A flat name space stands for a directory tree when every name in it is
    plain, all names are of one kind (absolute, or relative to the working
    directory) and every name lies in a directory of the name space. *)

Definition parent_is_dir (f : gmap string node) (p : string) : bool :=
  match parent p with
  | None => true
  | Some q => match f !! q with Some Dir => true | _ => false end
  end.

Definition key_ok (f : gmap string node) (abs : bool) (k : string) : bool :=
  plain_path k && Bool.eqb (is_abs k) abs && parent_is_dir f k.

Definition tree (f : gmap string node) (abs : bool) : bool :=
  forallb (fun kn => key_ok f abs (fst kn)) (map_to_list f).

(** The name [p] is plain and of the kind of the names of the tree [f]. *)
Definition names_ready (f : gmap string node) (p : string) : bool :=
  plain_path p && tree f (is_abs p).

(** The scores directory [dir] and the scores file [file] can be used as
    they are: [dir] is a plain path of the kind of the tree [f], it is
    missing or a directory, and the directory it lies in exists; [file] is
    a single plain name, so that the scores path is [dir/file]. *)
Definition scores_ready (f : gmap string node) (dir file : string) : bool :=
  plain_path dir && plain_component file
  && (String.length (path_join dir file) <=? 4095)%nat
  && tree f (is_abs dir)
  && parent_is_dir f dir
  && match f !! dir with Some (FText _) | Some (FJson _) => false | _ => true end.

(** The files a run of [main] writes to can be used as they are: the
    caption export file of an exporting evaluation, the scores directory
    and file of any other run. *)
Definition outputs_ready (f : gmap string node) (args : Args) : bool :=
  match captions_import_file args with
  | None =>
      if export_captions args then names_ready f (captions_export_file args)
      else scores_ready f (scores_dir args) (scores_file args)
  | Some _ => scores_ready f (scores_dir args) (scores_file args)
  end.

Section Driver.

Context {E : Externals}.

Definition dict : Type := list (string * Value).

Record world := {
  fs : gmap string node;
  rng : Rng;
  trace : list event
}.

Definition set_fs (w : world) (f : gmap string node) : world :=
  {| fs := f; rng := rng w; trace := trace w |}.
Definition set_rng (w : world) (r : Rng) : world :=
  {| fs := fs w; rng := r; trace := trace w |}.
Definition log (w : world) (e : event) : world :=
  {| fs := fs w; rng := rng w; trace := trace w ++ [e] |}.

(** ** The monad of the driver: state [world], exceptions [exn] *)

Definition M (A : Type) : Type := world -> result A * world.

Definition ret {A} (a : A) : M A := fun w => (Ok a, w).

Definition bind {A B} (c : M A) (k : A -> M B) : M B :=
  fun w => match c w with
           | (Ok a, w') => k a w'
           | (Raise e, w') => (Raise e, w')
           end.

Definition raise {A} (e : exn) : M A := fun w => (Raise e, w).

Definition lift {A} (r : result A) : M A := fun w => (r, w).

Definition when (b : bool) (c : M unit) : M unit := if b then c else ret tt.

End Driver.

Declare Scope drv_scope.
Delimit Scope drv_scope with drv.
Notation "'let*' x ':=' c 'in' k" := (bind c (fun x => k))
  (at level 10, x pattern, c at level 100, k at level 200) : drv_scope.
Notation "c '>>' k" := (bind c (fun _ => k))
  (at level 100, k at level 200, right associativity) : drv_scope.
Local Open Scope drv_scope.

Section Library.

Context {E : Externals}.

(** ** Operating-system calls

    The name space is flat: a path is looked up as the string the program
    passes, and only what the program itself can observe through
    [os.path.exists], [open] and [os.makedirs] is modelled.  The resolution
    of a name through its components is not: [makedirs] registers the
    directory itself and [open_file] the file itself.  This is what the
    system does on plain names in a name space that is a tree (see [tree],
    [names_ready] and [scores_ready]).  Elsewhere the system can refuse a
    name the model accepts (an empty name, a name below a missing directory
    or below a file), create the missing ancestors of a directory, or reach
    one file by two spellings.  Permissions and the capacity of the disk are
    not modelled either. *)

(** [os.path.exists(p)] *)
Definition path_exists (p : string) : M bool :=
  fun w => (Ok (match fs w !! p with Some _ => true | None => false end), w).

(** [os.makedirs(p)] *)
Definition makedirs (p : string) : M unit :=
  fun w => match fs w !! p with
           | Some _ => (Raise (FileExistsError p), w)
           | None => (Ok tt, set_fs w (<[p := Dir]> (fs w)))
           end.

(** [open(p, mode)] for writing: ["w"] creates or truncates the file, ["a"]
    creates it when missing and keeps it otherwise. *)
Definition open_file (p : string) (mode : open_mode) : M unit :=
  fun w => match fs w !! p, mode with
           | Some Dir, _ => (Raise (IsADirectoryError p), w)
           | Some _, ModeA => (Ok tt, w)
           | _, _ => (Ok tt, set_fs w (<[p := FText EmptyString]> (fs w)))
           end.

(** The text a file holds. *)
Definition node_text (n : node) : string :=
  match n with
  | Dir => EmptyString
  | FText s => s
  | FJson j => json_dumps j
  end.

(** [f.write(data)] on a file opened for writing: the text goes to the end. *)
Definition file_write (p : string) (data : string) : M unit :=
  fun w => match fs w !! p with
           | Some n => (Ok tt, set_fs w (<[p := FText (node_text n +:+ data)]> (fs w)))
           | None => (Ok tt, set_fs w (<[p := FText data]> (fs w)))
           end.

(** [json.dump(doc, f)] on a file opened for writing. *)
Definition json_dump (doc : json) (p : string) : M unit :=
  fun w => match fs w !! p with
           | Some (FText EmptyString) | None =>
               (Ok tt, set_fs w (<[p := FJson doc]> (fs w)))
           | Some n =>
               (Ok tt, set_fs w (<[p := FText (node_text n +:+ json_dumps doc)]> (fs w)))
           end.

(** [with open(p) as f: json.load(f)] *)
Definition json_load (p : string) : M json :=
  fun w => match fs w !! p with
           | None => (Raise (FileNotFoundError p), w)
           | Some Dir => (Raise (IsADirectoryError p), w)
           | Some (FJson j) => (Ok j, w)
           | Some (FText s) =>
               match json_loads s with
               | Some j => (Ok j, w)
               | None => (Raise JSONDecodeError, w)
               end
           end.

(** ** Library calls, logged *)

(** [seed_everything(s)] *)
Definition seed_everything (s : Z) : M unit :=
  fun w => (Ok tt, log (set_rng w (seed_state s)) (EvSeed s)).

Definition call_get_splits (ann dirs spl : strs) (use_splits : bool)
  : M (list (Sample Image)) :=
  fun w => let '(ds, r) := get_splits_for_evaluation ann dirs spl use_splits (rng w) in
           (Ok ds, log (set_rng w r) (EvGetSplits ann dirs spl use_splits)).

Definition call_generate_caption (i : nat) (img : Tensor) (model : Model)
    (beam : bool) : M (list string) :=
  fun w => let '(preds, r) := generate_caption img model beam (rng w) in
           (Ok preds, log (set_rng w r) (EvGenerate i preds)).

Definition call_compute_captioning_metrics (preds reference_captions : json)
    (avg_metrics : dict) (i no_meteor_count : Z) : M dict :=
  fun w => (Ok (compute_captioning_metrics preds reference_captions avg_metrics
                  i no_meteor_count),
            log w (EvMetrics i no_meteor_count preds reference_captions)).

Definition call_load_from_checkpoint (pth : string) : M Model :=
  fun w => match load_from_checkpoint pth with
           | Some m => (Ok m, log w (EvLoadCheckpoint pth))
           | None => (Raise (LibraryError "load_from_checkpoint"),
                      log w (EvLoadCheckpoint pth))
           end.

Definition call_from_pretrained (name : string) : M Processor :=
  fun w => match from_pretrained name with
           | Some p => (Ok p, log w (EvFromPretrained name))
           | None => (Raise (LibraryError "from_pretrained"),
                      log w (EvFromPretrained name))
           end.

(** [for i in range(0, n)] threading the loop-carried variables [st]. *)
Fixpoint for_loop {S} (body : nat -> S -> M S) (idx : list nat) (st : S) : M S :=
  match idx with
  | [] => ret st
  | i :: rest => let* st' := body i st in for_loop body rest st'
  end.

Definition for_range {S} (n : Z) (body : nat -> S -> M S) (st : S) : M S :=
  for_loop body (seq 0 (Z.to_nat n)) st.

End Library.

(** ** The driver *)

Section Program.

Context {E : Externals}.

(** [{metric: 0.0 for metric in metrics}] *)
Definition metrics_init (metrics : list string) : dict :=
  fold_left (fun d metric => dict_set d metric zero) metrics [].

(** The text [export_metrics] accumulates over [avg_metrics.items()]. *)
Definition metrics_text (avg_metrics : dict) : string :=
  fold_left (fun metrics_str '(metric, value) =>
               metrics_str +:+ (metric +:+ tab +:+ format_3f value +:+ tab))
            avg_metrics EmptyString.

(** ["{:s}\t{:s}\n".format(model_basename, metrics_str)] *)
Definition format_line (model_basename : json) (metrics_str : string)
  : result string :=
  match format_s model_basename with
  | Ok b => Ok (b +:+ tab +:+ metrics_str +:+ newline)
  | Raise e => Raise e
  end.

Definition export_metrics (avg_metrics : dict) (scores_dir scores_file : string)
    (model_basename : json) : M unit :=
  let metrics_str := metrics_text avg_metrics in
  let* dir_exists := path_exists scores_dir in
  when (negb dir_exists) (makedirs scores_dir) >>
  let scores_file := path_join scores_dir scores_file in
  let* file_exists := path_exists scores_file in
  let mode := if negb file_exists then ModeW else ModeA in
  open_file scores_file mode >>
  let* line := lift (format_line model_basename metrics_str) in
  file_write scores_file line.

(** The caption record [eval_model] collects for one sample. *)
Definition caption_record (fname : string) (preds reference_captions : list string)
  : json :=
  JObj [("filename", JStr fname);
        ("preds", json_of_strs preds);
        ("reference_captions", json_of_strs reference_captions)].

(** One iteration of the loop of [eval_model]; the loop carries [captions]
    and [avg_metrics], and [no_meteor_count] is the variable set before the
    loop. *)
Definition eval_step (model : Model) (preprocessor : Processor) (args : Args)
    (ds : list (Sample Image)) (no_meteor_count : Z)
    (i : nat) (st : list json * dict) : M (list json * dict) :=
  let '(captions, avg_metrics) := st in
  let* sample := lift (list_getitem ds (Z.of_nat i)) in
  let img := preprocess preprocessor (image sample) model in
  let reference_captions := raw_captions sample in
  let* preds := call_generate_caption i img model (use_beam_search args) in
  let* avg_metrics :=
    (if negb (no_evaluation args)
     then call_compute_captioning_metrics (json_of_strs preds)
            (json_of_strs reference_captions) avg_metrics (Z.of_nat i)
            no_meteor_count
     else ret avg_metrics) in
  let captions :=
    if export_captions args
    then captions ++ [caption_record (filename sample) preds reference_captions]
    else captions in
  ret (captions, avg_metrics).

Definition eval_model (model : Model) (preprocessor : Processor) (args : Args)
  : M (list json * dict) :=
  seed_everything (seed args) >>
  let* ds := call_get_splits (annotations_files args) (img_dirs args)
               (splits args) (negb (no_splits args)) in
  let avg_metrics := metrics_init (metrics args) in
  let no_meteor_count := 0 in
  let captions := [] in
  let* (captions, avg_metrics) :=
    for_range (Z.of_nat (length ds))
      (eval_step model preprocessor args ds no_meteor_count)
      (captions, avg_metrics) in
  ret (captions, avg_metrics).

(** One iteration of the loop of [main] over an imported document. *)
Definition import_step (data : json) (no_meteor_count : Z)
    (i : nat) (avg_metrics : dict) : M dict :=
  let* entry := lift (py_getitem_int data (Z.of_nat i)) in
  let* preds := lift (py_getitem_str entry "preds") in
  let* entry' := lift (py_getitem_int data (Z.of_nat i)) in
  let* reference_captions := lift (py_getitem_str entry' "reference_captions") in
  call_compute_captioning_metrics preds reference_captions avg_metrics
    (Z.of_nat i) no_meteor_count.

(** The metric accumulation of the import branch of [main]: from the
    initialisation of [avg_metrics] to the end of the loop. *)
Definition import_metrics (args : Args) (data : json) : M dict :=
  let avg_metrics := metrics_init (metrics args) in
  let no_meteor_count := 0 in
  let* n := lift (py_len data) in
  for_range (n - 1) (import_step data no_meteor_count) avg_metrics.

Definition err_no_source : string :=
  "captions_import_file and model_pth can not be None at the same time. Make sure you pass one of them".
Definition err_splits : string :=
  "The number of splits must match the number of annotations files".
Definition err_export_file : string :=
  "No `captions_export_file` was passed. Make sure you pass a valid file JSON path.".
Definition err_no_evaluation : string :=
  "`export_captions` cannot be False while `no_evaluation` is True.".

(** The three replacements of a one-element list by its element. *)
Definition unwrap_singletons (args : Args) : Args :=
  let args :=
    if negb (no_splits args) && (strs_len (splits args) =? 1)
    then set_splits args (strs_first (splits args)) else args in
  let args :=
    if strs_len (annotations_files args) =? 1
    then set_annotations_files args (strs_first (annotations_files args))
    else args in
  if strs_len (img_dirs args) =? 1
  then set_img_dirs args (strs_first (img_dirs args)) else args.

Definition main (args : Args) : M unit :=
  match captions_import_file args with
  | None =>
      match model_pth args with
      | None => raise (Exception err_no_source)
      | Some pth =>
          when (negb (no_splits args)
                && negb (strs_len (splits args) =? strs_len (annotations_files args)))
               (raise (Exception err_splits)) >>
          when (export_captions args
                && ((str_len (captions_export_file args) =? 0)
                    || negb (endswith (captions_export_file args) ".json")))
               (raise (Exception err_export_file)) >>
          when (negb (export_captions args) && no_evaluation args)
               (raise (Exception err_no_evaluation)) >>
          let args := unwrap_singletons args in
          let* model := call_load_from_checkpoint pth in
          let* preprocessor := call_from_pretrained (processor args) in
          let basename :=
            match model_basename args with
            | Some b => b
            | None => get_model_basename pth
            end in
          let* (captions, avg_metrics) := eval_model model preprocessor args in
          if negb (export_captions args)
          then export_metrics avg_metrics (scores_dir args) (scores_file args)
                 (JStr (get_model_basename pth))
          else if export_captions args
          then
            let* captions :=
              lift (list_setitem captions (Z.of_nat (length captions) - 1)
                      (JObj [("model_basename", JStr basename)])) in
            open_file (captions_export_file args) ModeW >>
            json_dump (JArr captions) (captions_export_file args)
          else ret tt
      end
  | Some import_file =>
      let* data := json_load import_file in
      let* n := lift (py_len data) in
      let* last := lift (py_getitem_int data (n - 1)) in
      let* basename := lift (py_getitem_str last "model_basename") in
      let* avg_metrics := import_metrics args data in
      export_metrics avg_metrics (scores_dir args) (scores_file args) basename
  end.

End Program.

(** ** Reference functions for the two loops *)

Section Reference.

Context {E : Externals}.

(** The captions the model generates for the samples of [ds] in order,
    starting from the generator state [r]. *)
Fixpoint generated (model : Model) (preprocessor : Processor) (beam : bool)
    (ds : list (Sample Image)) (r : Rng) : list (list string) :=
  match ds with
  | [] => []
  | sample :: ds' =>
      let '(preds, r') :=
        generate_caption (preprocess preprocessor (image sample) model) model beam r in
      preds :: generated model preprocessor beam ds' r'
  end.

(** The caption records of [ds], given the generated captions. *)
Definition records (ds : list (Sample Image)) (preds : list (list string))
  : list json :=
  zip_with (fun sample p => caption_record (filename sample) p (raw_captions sample))
           ds preds.

(** The accumulator after the records [recs], whose first has index [i],
    each passed to [compute_captioning_metrics] with the counter [0]. *)
Fixpoint accumulate (recs : list (json * json)) (i : Z) (avg_metrics : dict) : dict :=
  match recs with
  | [] => avg_metrics
  | (preds, reference_captions) :: rest =>
      accumulate rest (i + 1)
        (compute_captioning_metrics preds reference_captions avg_metrics i 0)
  end.

(** The (predictions, references) pairs of [ds]. *)
Definition scored (ds : list (Sample Image)) (preds : list (list string))
  : list (json * json) :=
  zip_with (fun sample p => (json_of_strs p, json_of_strs (raw_captions sample)))
           ds preds.

(** The events one pass of the loop logs for the samples [rest], the first
    of which has index [i], from the generator state [r]. *)
Fixpoint loop_events (model : Model) (preprocessor : Processor) (args : Args)
    (rest : list (Sample Image)) (i : nat) (r : Rng) : list event * Rng :=
  match rest with
  | [] => ([], r)
  | sample :: rest' =>
      let '(preds, r1) :=
        generate_caption (preprocess preprocessor (image sample) model) model
          (use_beam_search args) r in
      let '(evs, r') := loop_events model preprocessor args rest' (S i) r1 in
      (EvGenerate i preds
         :: (if no_evaluation args then []
             else [EvMetrics (Z.of_nat i) 0 (json_of_strs preds)
                     (json_of_strs (raw_captions sample))]) ++ evs, r')
  end.

(** The dataset [eval_model] assembles, and the generator state after the
    assembly: the loader runs right after the seed is installed. *)
Definition dataset (args : Args) : list (Sample Image) * Rng :=
  get_splits_for_evaluation (annotations_files args) (img_dirs args)
    (splits args) (negb (no_splits args)) (seed_state (seed args)).

End Reference.

(** ** Reading the log *)

(** The checkpoints loaded, the (index, counter) pairs passed to the metric
    computation and the captions generated, according to a log. *)
Definition checkpoints_loaded (t : list event) : list string :=
  omap (fun e => match e with EvLoadCheckpoint p => Some p | _ => None end) t.

Definition counters_passed (t : list event) : list (Z * Z) :=
  omap (fun e => match e with EvMetrics i c _ _ => Some (i, c) | _ => None end) t.

Definition captions_generated (t : list event) : list (nat * list string) :=
  omap (fun e => match e with EvGenerate i p => Some (i, p) | _ => None end) t.

(** ** Lines of a text *)

(** Does the text contain a line break? *)
Fixpoint has_newline (s : string) : bool :=
  match s with
  | EmptyString => false
  | String c s' => Ascii.eqb c (ascii_of_nat 10) || has_newline s'
  end.




(** The number of line breaks of a text. *)
Fixpoint line_breaks (s : string) : nat :=
  match s with
  | EmptyString => O
  | String c s' => ((if Ascii.eqb c (ascii_of_nat 10) then 1 else 0) + line_breaks s')%nat
  end.

(** ** Imported documents and command lines *)

(** The calls the import loop logs for the (predictions, references) pairs
    [pairs], the first of which has index [i]. *)
Fixpoint metric_events (pairs : list (json * json)) (i : nat) : list event :=
  match pairs with
  | [] => []
  | (preds, reference_captions) :: rest =>
      EvMetrics (Z.of_nat i) 0 preds reference_captions :: metric_events rest (S i)
  end.

(** The entry [j] of an imported document carries the predictions and the
    references [pr]. *)
Definition scored_as (j : json) (pr : json * json) : Prop :=
  py_getitem_str j "preds" = Ok (fst pr)
  /\ py_getitem_str j "reference_captions" = Ok (snd pr).

(** The sentinel record [main] installs. *)
Definition sentinel_record (basename : string) : json :=
  JObj [("model_basename", JStr basename)].

(** The three argument checks of the evaluation branch of [main] all pass. *)
Definition passes_validation (args : Args) : bool :=
  negb (negb (no_splits args)
        && negb (strs_len (splits args) =? strs_len (annotations_files args)))
  && negb (export_captions args
           && ((str_len (captions_export_file args) =? 0)
               || negb (endswith (captions_export_file args) ".json")))
  && negb (negb (export_captions args) && no_evaluation args).

Definition set_model_basename (a : Args) (v : option string) : Args :=
  {| seed := seed a; scores_dir := scores_dir a; scores_file := scores_file a;
     model_pth := model_pth a; model_basename := v;
     processor := processor a; use_beam_search := use_beam_search a;
     metrics := metrics a; no_splits := no_splits a;
     no_evaluation := no_evaluation a; export_captions := export_captions a;
     captions_export_file := captions_export_file a;
     captions_import_file := captions_import_file a;
     annotations_files := annotations_files a; img_dirs := img_dirs a;
     splits := splits a |}.

(** ** Computations and worlds of the statements *)

Section Predicates.

Context {E : Externals}.

(** [c] neither reads nor writes the file name space and reads nothing of the
    log: from a generator state [r] it produces one result, one generator
    state and one list of logged calls, all satisfying [P], whatever the
    files and the earlier log are. *)
Definition logs_with (P : event -> Prop) {A} (c : M A) : Prop :=
  forall r : Rng, exists (res : result A) (evs : list event) (r' : Rng),
    Forall P evs
    /\ forall f t, c {| fs := f; rng := r; trace := t |}
                   = (res, {| fs := f; rng := r'; trace := t ++ evs |}).

(** The logged call is not a metric computation with a counter other than 0. *)
Definition zero_counter (e : event) : Prop :=
  match e with
  | EvMetrics _ c _ _ => c = 0
  | _ => True
  end.

(** The world after the directory step of [export_metrics]. *)
Definition with_scores_dir (w : world) (dir : string) : world :=
  match fs w !! dir with
  | Some _ => w
  | None => set_fs w (<[dir := Dir]> (fs w))
  end.

(** The world after a run of the evaluation branch up to the end of
    [eval_model]. *)
Definition evaluated (args : Args) (pth : string) (model : Model)
    (preprocessor : Processor) (w : world) : world :=
  let args' := unwrap_singletons args in
  {| fs := fs w;
     rng := snd (loop_events model preprocessor args' (fst (dataset args')) 0
                   (snd (dataset args')));
     trace := trace w
              ++ EvLoadCheckpoint pth
              :: EvFromPretrained (processor args)
              :: EvSeed (seed args)
              :: EvGetSplits (annotations_files args') (img_dirs args')
                   (splits args') (negb (no_splits args))
              :: fst (loop_events model preprocessor args' (fst (dataset args')) 0
                        (snd (dataset args'))) |}.

(** The text of the file at [p], empty when there is none. *)
Definition file_text (w : world) (p : string) : string :=
  match fs w !! p with
  | Some n => node_text n
  | None => EmptyString
  end.

End Predicates.

(** ** The argument checks, one by one *)

(** The conditions of the three [raise] statements that follow the check of
    [model_pth]. *)
Definition splits_mismatch (args : Args) : bool :=
  negb (no_splits args)
  && negb (strs_len (splits args) =? strs_len (annotations_files args)).

Definition bad_export_path (args : Args) : bool :=
  export_captions args
  && ((str_len (captions_export_file args) =? 0)
      || negb (endswith (captions_export_file args) ".json")).

Definition nothing_to_do (args : Args) : bool :=
  negb (export_captions args) && no_evaluation args.

(** The messages of the four configuration errors. *)
Definition config_errors : list string :=
  [err_no_source; err_splits; err_export_file; err_no_evaluation].

(** ** The command-line parser *)

(** The namespace [parser.parse_args()] returns when no option is given.
    [cwd] is [os.getcwd()]; [SBERT_SIM], [ROUGE_L] and [BLEU] are the metric
    names imported from [utils]. *)
Definition default_args (cwd SBERT_SIM ROUGE_L BLEU : string) : Args := {|
  seed := 42;
  scores_dir := path_join cwd "eval_results";
  scores_file := "clip_cap_scores.tsv";
  model_pth := None;
  model_basename := None;
  processor := "openai/clip-vit-base-patch32";
  use_beam_search := false;
  metrics := [SBERT_SIM; ROUGE_L; BLEU +:+ "1"; BLEU +:+ "2"; BLEU +:+ "3";
              BLEU +:+ "4"];
  no_splits := false;
  no_evaluation := false;
  export_captions := false;
  captions_export_file := path_join cwd "exported_captions.json";
  captions_import_file := None;
  annotations_files :=
    Several ["./data/RSICD/dataset_rsicd.json"; "./data/UCMD/dataset_ucmd.json";
             "./data/RSITMD/dataset_rsitmd.json"; "./data/NAIS/dataset_nais.json"];
  img_dirs :=
    Several ["./data/RSICD/RSICD_images"; "./data/UCMD/UCMD_images";
             "./data/RSITMD/RSITMD_images"; "./data/NAIS/NAIS_images"];
  splits := Several ["val"; "test"; "test"; "test"]
|}.

(** ** Computations that only replay metrics *)

(** The logged call is a metric computation. *)
Definition is_metrics_call (e : event) : Prop :=
  match e with
  | EvMetrics _ _ _ _ => True
  | _ => False
  end.

(** The exception is not one of the driver's own [Exception]s. *)
Definition not_config_error {A} (res : result A) : Prop :=
  forall msg, res <> Raise (Exception msg).

Section Replay.

Context {E : Externals}.

(** [c] leaves the files and the generator alone, logs metric computations
    only, and raises no [Exception] of the driver. *)
Definition replays {A} (c : M A) : Prop :=
  forall w : world, exists (res : result A) (evs : list event),
    c w = (res, {| fs := fs w; rng := rng w; trace := trace w ++ evs |})
    /\ Forall is_metrics_call evs
    /\ not_config_error res.

(** The import branch before the scores are written: the document is read,
    the sentinel's name looked up and the metrics accumulated. *)
Definition import_prefix (args : Args) (file : string) : M (dict * json) :=
  let* data := json_load file in
  let* n := lift (py_len data) in
  let* last := lift (py_getitem_int data (n - 1)) in
  let* basename := lift (py_getitem_str last "model_basename") in
  let* avg_metrics := import_metrics args data in
  ret (avg_metrics, basename).

End Replay.

(** ** A concrete instance of the external libraries

    Used to run the driver on concrete inputs.  An image is represented by
    the caption the model emits for it; the generator state is a counter of
    the captions generated since seeding. *)

Module Demo.

Import QArith Qround Qabs.

Definition decimal (z : Z) : string :=
  NilZero.string_of_uint (N.to_uint (Z.to_N z)).

(** The nearest integer, a tie going to the even one. *)
Definition round_half_even (x : Q) : Z :=
  let f := Qfloor x in
  match (x - inject_Z f ?= 1 # 2)%Q with
  | Lt => f
  | Gt => (f + 1)%Z
  | Eq => if Z.even f then f else (f + 1)%Z
  end.

(** Three decimals, as ["{:.3f}"] prints a number of that exact value: the
    nearest multiple of 1/1000, a tie going to the even one, under the sign
    of the number (a negative number that rounds to zero keeps its sign). *)
Definition three_decimals (q : Q) : string :=
  let t := round_half_even (Qabs q * 1000)%Q in
  (match (q ?= 0)%Q with Lt => "-" | _ => EmptyString end)
  +:+ decimal (t / 1000) +:+ "."
  +:+ String.substring 1 3 (decimal (t mod 1000 + 1000)).

Definition is_str (s : string) (v : json) : bool :=
  match v with
  | JStr s' => String.eqb s s'
  | _ => false
  end.

(** The score of one sample for one metric: whether the first generated
    caption is one of the references.  METEOR cannot be computed on an empty
    caption. *)
Definition score (metric : string) (preds reference_captions : json) : option Q :=
  match preds, reference_captions with
  | JArr (JStr p :: _), JArr refs =>
      if String.eqb metric "METEOR" && String.eqb p EmptyString then None
      else Some (if existsb (is_str p) refs then 1%Q else 0%Q)
  | _, _ => None
  end.

(** Modelled from the spec: [evaluation.utils.compute_captioning_metrics] is
    not among the sources.  The spec describes the accumulator as a running
    average per metric name, updated once per processed sample, with a
    counter of the samples on which METEOR could not be computed taken off
    the denominator.  The metric libraries are replaced by [score]. *)
Definition running_averages (preds reference_captions : json)
    (avg_metrics : list (string * Q)) (i no_meteor_count : Z)
  : list (string * Q) :=
  map (fun '(metric, avg) =>
         match score metric preds reference_captions with
         | Some value =>
             let n := if String.eqb metric "METEOR"
                      then (i + 1 - no_meteor_count)%Z else (i + 1)%Z in
             (metric, Qred (avg + (value - avg) / inject_Z n)%Q)
         | None => (metric, avg)
         end)
      avg_metrics.

Definition externals (ds : list (Sample string)) : Externals := {|
  Model := string;
  Processor := string;
  Image := string;
  Tensor := string;
  Rng := Z;
  Value := Q;
  zero := 0%Q;
  format_3f := three_decimals;
  seed_state := fun s => s;
  get_model_basename := fun pth => pth +:+ ".name";
  get_splits_for_evaluation := fun _ _ _ _ r => (ds, r);
  compute_captioning_metrics := running_averages;
  generate_caption := fun img _ _ r => ([img], (r + 1)%Z);
  preprocess := fun _ img _ => img;
  load_from_checkpoint := fun pth => Some pth;
  from_pretrained := fun name => Some name;
  json_dumps := fun _ => EmptyString;
  json_loads := fun _ => None
|}.

(** A command line: the defaults of the parser with one dataset, and the
    given splits, flags and files. *)
Definition args (spl : list string) (export no_eval : bool)
    (export_file : string) (import_file : option string) : Args := {|
  seed := 42;
  scores_dir := "eval_results";
  scores_file := "clip_cap_scores.tsv";
  model_pth := Some "model.ckpt";
  model_basename := None;
  processor := "openai/clip-vit-base-patch32";
  use_beam_search := false;
  metrics := ["ROUGE_L"; "METEOR"];
  no_splits := false;
  no_evaluation := no_eval;
  export_captions := export;
  captions_export_file := export_file;
  captions_import_file := import_file;
  annotations_files := Several ["dataset_rsicd.json"];
  img_dirs := Several ["RSICD_images"];
  splits := Several spl
|}.

(** Plain evaluation; evaluation with export; import of the exported file. *)
Definition args_eval : Args :=
  args ["test"] false false "exported_captions.json" None.
Definition args_export : Args :=
  args ["test"] true false "exported_captions.json" None.
Definition args_import : Args :=
  args ["test"] false false "exported_captions.json" (Some "exported_captions.json").

(** Two samples: the model describes the first as a reference does, the
    second not. *)
Definition ds2 : list (Sample string) :=
  [ {| image := "a river"; raw_captions := ["a river"; "a stream"]; filename := "0.jpg" |};
    {| image := "a road"; raw_captions := ["an airport"]; filename := "1.jpg" |} ].

(** Two samples: the model emits an empty caption for the first, on which
    METEOR cannot be computed, and a reference caption for the second. *)
Definition ds_meteor : list (Sample string) :=
  [ {| image := EmptyString; raw_captions := ["a lake"]; filename := "0.jpg" |};
    {| image := "a river"; raw_captions := ["a river"]; filename := "1.jpg" |} ].

(** An empty disk, and a disk with a scores file of one earlier run. *)
Definition w0 (ds : list (Sample string)) : @world (externals ds) :=
  @Build_world (externals ds) ∅ 0%Z [].

Definition scores_path : string := "eval_results/clip_cap_scores.tsv".
Definition earlier_run : string := "old.ckpt.name" +:+ tab +:+ newline.

Definition w_scores (ds : list (Sample string)) : @world (externals ds) :=
  @Build_world (externals ds)
    (<[scores_path := FText earlier_run]> (<["eval_results" := Dir]> ∅)) 0%Z [].



Definition w_scores_taken (ds : list (Sample string)) : @world (externals ds) :=
  @Build_world (externals ds)
    (<[scores_path := Dir]> (<["eval_results" := Dir]> ∅)) 0%Z [].

(** The same libraries with a checkpoint store that has no checkpoint. *)
Definition externals_offline (ds : list (Sample string)) : Externals := {|
  Model := string;
  Processor := string;
  Image := string;
  Tensor := string;
  Rng := Z;
  Value := Q;
  zero := 0%Q;
  format_3f := three_decimals;
  seed_state := fun s => s;
  get_model_basename := fun pth => pth +:+ ".name";
  get_splits_for_evaluation := fun _ _ _ _ r => (ds, r);
  compute_captioning_metrics := running_averages;
  generate_caption := fun img _ _ r => ([img], (r + 1)%Z);
  preprocess := fun _ img _ => img;
  load_from_checkpoint := fun pth => None;
  from_pretrained := fun name => Some name;
  json_dumps := fun _ => EmptyString;
  json_loads := fun _ => None
|}.

(** A command line without a model path and with two things wrong after
    that: two splits for one annotation file, and a [.txt] export path. *)
Definition args_nothing : Args :=
  set_model_basename
    {| seed := 42; scores_dir := "eval_results";
       scores_file := "clip_cap_scores.tsv"; model_pth := None;
       model_basename := None; processor := "openai/clip-vit-base-patch32";
       use_beam_search := false; metrics := ["ROUGE_L"; "METEOR"];
       no_splits := false; no_evaluation := false; export_captions := true;
       captions_export_file := "exported_captions.txt";
       captions_import_file := None;
       annotations_files := Several ["dataset_rsicd.json"];
       img_dirs := Several ["RSICD_images"];
       splits := Several ["val"; "test"] |} None.

(** The import of the exported file by a command line that is wrong in
    every argument of the evaluation branch. *)
Definition args_import_sloppy : Args :=
  {| seed := 7; scores_dir := "eval_results";
     scores_file := "clip_cap_scores.tsv"; model_pth := None;
     model_basename := Some "ignored"; processor := "none";
     use_beam_search := true; metrics := ["ROUGE_L"; "METEOR"];
     no_splits := false; no_evaluation := true; export_captions := false;
     captions_export_file := "exported_captions.txt";
     captions_import_file := Some "exported_captions.json";
     annotations_files := Several ["dataset_rsicd.json"];
     img_dirs := Several [];
     splits := Several ["val"; "test"] |}.

(** A disk that holds the document [doc] as the file to import. *)
Definition w_import (ds : list (Sample string)) (doc : json)
  : @world (externals ds) :=
  @Build_world (externals ds) (<["exported_captions.json" := FJson doc]> ∅) 0%Z [].

(** An entry without predictions. *)
Definition entry_without_preds : json :=
  JObj [("filename", JStr "1.jpg"); ("reference_captions", json_of_strs ["an airport"])].

End Demo.

(** * Properties *)

(** ** The Python operations on small inputs *)

Example endswith_json : endswith "exported_captions.json" ".json" = true.
Proof. reflexivity. Qed.

Example endswith_short : endswith "json" ".json" = false.
Proof. reflexivity. Qed.

Example path_join_relative :
  path_join "eval_results" "clip_cap_scores.tsv" = "eval_results/clip_cap_scores.tsv".
Proof. reflexivity. Qed.

Example path_join_absolute : path_join "eval_results" "/tmp/s.tsv" = "/tmp/s.tsv".
Proof. reflexivity. Qed.

Example path_join_slash : path_join "eval_results/" "s.tsv" = "eval_results/s.tsv".
Proof. reflexivity. Qed.

Example setitem_last : list_setitem [1; 2; 3] (3 - 1) 9 = Ok [1; 2; 9].
Proof. reflexivity. Qed.

Example setitem_negative : list_setitem [1; 2; 3] (-1) 9 = Ok [1; 2; 9].
Proof. reflexivity. Qed.

Example setitem_empty : list_setitem (@nil Z) (0 - 1) 9 = Raise IndexError.
Proof. reflexivity. Qed.

Example dict_keeps_first_position :
  dict_set (dict_set (dict_set [] "BLEU1" 0) "METEOR" 0) "BLEU1" 1
  = [("BLEU1", 1); ("METEOR", 0)].
Proof. reflexivity. Qed.

Example format_s_of_list : format_s (JArr []) = Raise TypeError.
Proof. reflexivity. Qed.

(** ["{:.3f}"] rounds a tie to the even digit and keeps the sign of a
    negative number that rounds to zero. *)
Example three_decimals_rounding :
  Demo.three_decimals (1 # 16) = "0.062"
  /\ Demo.three_decimals (3 # 16) = "0.188"
  /\ Demo.three_decimals (- (1 # 10000)) = "-0.000"
  /\ Demo.three_decimals (1 # 2) = "0.500".
Proof. repeat split; reflexivity. Qed.

(** ** Argument validation *)

Section Validation.

Context {E : Externals}.

Lemma when_raise_true {B} (b : bool) (e : exn) (k : unit -> M B) (w : world) :
  b = true -> bind (when b (raise e)) k w = (Raise e, w).
Proof. intros ->. reflexivity. Qed.

Lemma when_false (b : bool) (c : M unit) (k : unit -> M unit) (w : world) :
  b = false -> bind (when b c) k w = k tt w.
Proof. intros ->. reflexivity. Qed.

(** C4.  Without an import file, when per-file splitting is requested
    ([no_splits] is false) and the number of splits differs from the number
    of annotation files, [main] raises an [Exception]; the world comes back
    as it was, so nothing was logged: no checkpoint was loaded before the
    exception. *)
Theorem main_split_count_mismatch_raises (args : Args) (w : world) :
  captions_import_file args = None ->
  no_splits args = false ->
  strs_len (splits args) <> strs_len (annotations_files args) ->
  exists msg,
    main args w = (Raise (Exception msg), w)
    /\ (msg = err_no_source \/ msg = err_splits)
    /\ checkpoints_loaded (trace (snd (main args w))) = checkpoints_loaded (trace w).
Proof.
  intros Himp Hns Hlen. unfold main. rewrite Himp.
  destruct (model_pth args) as [pth|].
  - exists err_splits. rewrite when_raise_true.
    + simpl. auto.
    + rewrite Hns. simpl. apply negb_true_iff, Z.eqb_neq, Hlen.
  - exists err_no_source. simpl. auto.
Qed.

(** C5.  Without an import file, when captions are to be exported and the
    export path does not end in [.json], [main] raises an [Exception] and the
    world comes back as it was: no checkpoint was loaded. *)
Theorem main_bad_export_path_raises (args : Args) (w : world) :
  captions_import_file args = None ->
  export_captions args = true ->
  endswith (captions_export_file args) ".json" = false ->
  exists msg,
    main args w = (Raise (Exception msg), w)
    /\ (msg = err_no_source \/ msg = err_splits \/ msg = err_export_file)
    /\ checkpoints_loaded (trace (snd (main args w))) = checkpoints_loaded (trace w).
Proof.
  intros Himp Hexp Hend. unfold main. rewrite Himp.
  destruct (model_pth args) as [pth|].
  - destruct (negb (no_splits args)
              && negb (strs_len (splits args) =? strs_len (annotations_files args)))
      eqn:Hsplit.
    + exists err_splits. simpl. auto.
    + exists err_export_file. rewrite when_false by reflexivity.
      rewrite when_raise_true.
      * simpl. auto.
      * rewrite Hexp, Hend. simpl. apply orb_true_r.
  - exists err_no_source. simpl. auto.
Qed.

(** C6.  Without an import file, when captions are not exported and the
    evaluation is switched off, [main] raises an [Exception] and the world
    comes back as it was: no checkpoint was loaded. *)
Theorem main_nothing_to_do_raises (args : Args) (w : world) :
  captions_import_file args = None ->
  export_captions args = false ->
  no_evaluation args = true ->
  exists msg,
    main args w = (Raise (Exception msg), w)
    /\ (msg = err_no_source \/ msg = err_splits \/ msg = err_no_evaluation)
    /\ checkpoints_loaded (trace (snd (main args w))) = checkpoints_loaded (trace w).
Proof.
  intros Himp Hexp Hnoev. unfold main. rewrite Himp.
  destruct (model_pth args) as [pth|].
  - destruct (negb (no_splits args)
              && negb (strs_len (splits args) =? strs_len (annotations_files args)))
      eqn:Hsplit.
    + exists err_splits. simpl. auto.
    + exists err_no_evaluation. rewrite when_false by reflexivity.
      rewrite when_false by (rewrite Hexp; reflexivity).
      rewrite when_raise_true by (rewrite Hexp, Hnoev; reflexivity).
      simpl. auto.
  - exists err_no_source. simpl. auto 6.
Qed.

End Validation.

(** ** Computations that only log *)

Section Logging.

Context {E : Externals}.
Variable P : event -> Prop.

Lemma logs_with_ret {A} (a : A) : logs_with P (ret a).
Proof.
  intros r. exists (Ok a), [], r. split; [constructor|].
  intros f t. unfold ret. by rewrite app_nil_r.
Qed.

Lemma logs_with_lift {A} (x : result A) : logs_with P (lift x).
Proof.
  intros r. exists x, [], r. split; [constructor|].
  intros f t. unfold lift. by rewrite app_nil_r.
Qed.

Lemma logs_with_bind {A B} (c : M A) (k : A -> M B) :
  logs_with P c -> (forall a, logs_with P (k a)) -> logs_with P (bind c k).
Proof.
  intros Hc Hk r. destruct (Hc r) as (res & evs & r1 & Hevs & Hrun).
  destruct res as [a|e].
  - destruct (Hk a r1) as (res2 & evs2 & r2 & Hevs2 & Hrun2).
    exists res2, (evs ++ evs2), r2. split; [by apply Forall_app|].
    intros f t. unfold bind. rewrite Hrun, Hrun2. by rewrite app_assoc.
  - exists (Raise e), evs, r1. split; [done|].
    intros f t. unfold bind. by rewrite Hrun.
Qed.

Lemma logs_with_for_loop {S} (body : nat -> S -> M S) (idx : list nat) :
  (forall i st, logs_with P (body i st)) ->
  forall st, logs_with P (for_loop body idx st).
Proof.
  intros Hbody. induction idx as [|i idx IH]; intros st; simpl.
  - apply logs_with_ret.
  - apply logs_with_bind; [apply Hbody | exact IH].
Qed.

Lemma logs_with_compute (preds refs : json) (avg : dict) (i c : Z) :
  P (EvMetrics i c preds refs) ->
  logs_with P (call_compute_captioning_metrics preds refs avg i c).
Proof.
  intros HP r.
  exists (Ok (compute_captioning_metrics preds refs avg i c)),
    [EvMetrics i c preds refs], r.
  split; [by repeat constructor|]. intros f t. reflexivity.
Qed.

End Logging.

(** Peels the binds of a computation whose first steps are lifted results. *)
Ltac logs_lifted :=
  repeat (apply logs_with_bind; [apply logs_with_lift | intros ?]).

Section ImportLogs.

Context {E : Externals}.

Lemma logs_import_step data i avg :
  logs_with zero_counter (import_step data 0 i avg).
Proof.
  unfold import_step. logs_lifted. by apply logs_with_compute.
Qed.

Lemma logs_import_metrics args data :
  logs_with zero_counter (import_metrics args data).
Proof.
  unfold import_metrics. logs_lifted.
  apply logs_with_for_loop. intros i st. apply logs_import_step.
Qed.

End ImportLogs.

(** ** What the evaluation loop computes *)

Section EvalLoop.

Context {E : Externals}.

Lemma norm_index_in_range (len : nat) (i : nat) :
  (i < len)%nat -> norm_index (Z.of_nat len) (Z.of_nat i) = Some i.
Proof.
  intros Hi. unfold norm_index.
  destruct (Z.ltb_spec (Z.of_nat i) 0) as [?|_]; [lia|].
  destruct (Z.leb_spec 0 (Z.of_nat i)) as [_|?]; [|lia].
  destruct (Z.ltb_spec (Z.of_nat i) (Z.of_nat len)) as [_|?]; [|lia].
  simpl. by rewrite Nat2Z.id.
Qed.

Lemma list_getitem_middle {A} (done rest : list A) (x : A) :
  list_getitem (done ++ x :: rest) (Z.of_nat (length done)) = Ok x.
Proof.
  unfold list_getitem. rewrite norm_index_in_range.
  - by rewrite list_lookup_middle.
  - rewrite length_app. simpl. lia.
Qed.

Lemma eval_step_run model preprocessor args ds i sample captions avg f r t :
  list_getitem ds (Z.of_nat i) = Ok sample ->
  eval_step model preprocessor args ds 0 i (captions, avg)
    {| fs := f; rng := r; trace := t |}
  = let '(preds, r1) :=
      generate_caption (preprocess preprocessor (image sample) model) model
        (use_beam_search args) r in
    (Ok (if export_captions args
         then captions ++ [caption_record (filename sample) preds (raw_captions sample)]
         else captions,
         if no_evaluation args then avg
         else compute_captioning_metrics (json_of_strs preds)
                (json_of_strs (raw_captions sample)) avg (Z.of_nat i) 0),
     {| fs := f; rng := r1;
        trace := t ++ EvGenerate i preds
                   :: (if no_evaluation args then []
                       else [EvMetrics (Z.of_nat i) 0 (json_of_strs preds)
                               (json_of_strs (raw_captions sample))]) |}).
Proof.
  intros Hget. unfold eval_step, bind, lift, call_generate_caption. rewrite Hget.
  simpl.
  destruct (generate_caption _ model (use_beam_search args) r) as [preds r1].
  destruct (no_evaluation args); simpl.
  - reflexivity.
  - unfold log; simpl. by rewrite <- app_assoc.
Qed.

Lemma eval_loop_spec model preprocessor args ds :
  forall rest done captions avg r f t,
    ds = done ++ rest ->
    let preds := generated model preprocessor (use_beam_search args) rest r in
    for_loop (eval_step model preprocessor args ds 0)
      (seq (length done) (length rest)) (captions, avg)
      {| fs := f; rng := r; trace := t |}
    = (Ok (captions ++ (if export_captions args then records rest preds else []),
           if no_evaluation args then avg
           else accumulate (scored rest preds) (Z.of_nat (length done)) avg),
       {| fs := f;
          rng := snd (loop_events model preprocessor args rest (length done) r);
          trace := t ++ fst (loop_events model preprocessor args rest (length done) r) |}).
Proof.
  induction rest as [|sample rest IH]; intros done captions avg r f t Hds preds.
  - simpl. unfold ret.
    by destruct (export_captions args), (no_evaluation args); rewrite !app_nil_r.
  - subst preds. cbn [length seq for_loop]. unfold bind at 1.
    rewrite (eval_step_run _ _ _ _ _ sample)
      by (rewrite Hds; apply list_getitem_middle).
    cbn [generated loop_events].
    destruct (generate_caption _ model (use_beam_search args) r) as [p r1].
    specialize (IH (done ++ [sample])).
    rewrite length_app in IH. cbn [length] in IH.
    replace (length done + 1)%nat with (S (length done)) in IH by lia.
    rewrite IH by (by rewrite <- app_assoc).
    destruct (loop_events model preprocessor args rest (S (length done)) r1)
      as [evs r'].
    cbn [fst snd]. f_equal.
    + f_equal. f_equal.
      * destruct (export_captions args); [|by rewrite !app_nil_r].
        by rewrite <- app_assoc.
      * destruct (no_evaluation args); [done|].
        cbn [scored zip_with accumulate]. unfold scored.
        by rewrite Nat2Z.inj_succ, <- Z.add_1_r.
    + f_equal. rewrite <- app_assoc. reflexivity.
Qed.

End EvalLoop.

Section EvalModel.

Context {E : Externals}.

Lemma eval_model_spec model preprocessor args (w : world) :
  let ds := fst (dataset args) in
  let r1 := snd (dataset args) in
  let preds := generated model preprocessor (use_beam_search args) ds r1 in
  eval_model model preprocessor args w
  = (Ok (if export_captions args then records ds preds else [],
         if no_evaluation args then metrics_init (metrics args)
         else accumulate (scored ds preds) 0 (metrics_init (metrics args))),
     {| fs := fs w;
        rng := snd (loop_events model preprocessor args ds 0 r1);
        trace := trace w
                 ++ EvSeed (seed args)
                 :: EvGetSplits (annotations_files args) (img_dirs args)
                      (splits args) (negb (no_splits args))
                 :: fst (loop_events model preprocessor args ds 0 r1) |}).
Proof.
  intros ds r1 preds. subst ds r1 preds. unfold dataset.
  unfold eval_model. unfold bind at 1. unfold seed_everything.
  unfold bind at 1. unfold call_get_splits. cbn [rng set_rng log].
  destruct (get_splits_for_evaluation _ _ _ _ _) as [ds r1]. cbn [fst snd].
  unfold bind, for_range. rewrite Nat2Z.id.
  pose proof (eval_loop_spec model preprocessor args ds ds [] []
                (metrics_init (metrics args)) r1) as Hloop.
  cbn [length app] in Hloop. unfold log, set_rng. cbn [fs rng trace].
  rewrite Hloop by reflexivity.
  unfold ret. cbn [fs trace]. f_equal. f_equal.
  rewrite <- !app_assoc. reflexivity.
Qed.

Lemma captions_generated_loop_events model preprocessor args rest :
  forall i r,
    captions_generated (fst (loop_events model preprocessor args rest i r))
    = zip (seq i (length rest))
          (generated model preprocessor (use_beam_search args) rest r).
Proof.
  induction rest as [|sample rest IH]; intros i r; [reflexivity|].
  cbn [loop_events generated length seq].
  destruct (generate_caption _ model (use_beam_search args) r) as [p r1].
  specialize (IH (S i) r1).
  destruct (loop_events model preprocessor args rest (S i) r1) as [evs r'].
  cbn [fst] in *. unfold captions_generated in *. cbn [omap list_omap].
  destruct (no_evaluation args); cbn [app omap list_omap]; by rewrite IH.
Qed.

Lemma counters_passed_loop_events model preprocessor args rest :
  forall i r,
    counters_passed (fst (loop_events model preprocessor args rest i r))
    = if no_evaluation args then []
      else map (fun k => (Z.of_nat k, 0)) (seq i (length rest)).
Proof.
  induction rest as [|sample rest IH]; intros i r.
  - by destruct (no_evaluation args).
  - cbn [loop_events length seq map].
    destruct (generate_caption _ model (use_beam_search args) r) as [p r1].
    specialize (IH (S i) r1).
    destruct (loop_events model preprocessor args rest (S i) r1) as [evs r'].
    cbn [fst] in *. unfold counters_passed in *. cbn [omap list_omap].
    destruct (no_evaluation args); cbn [app omap list_omap]; by rewrite IH.
Qed.

(** C8.  A run of [eval_model] does not depend on the state of the world at
    entry, in particular not on the random generator: for a given model,
    processor and argument record (seed, dataset sources, decoding flag)
    there is one result, one final generator state and one list of logged
    calls, and every run returns and logs exactly these.  The captions
    logged for the samples [0 .. N-1] are [generated], a function of the
    model, the dataset and the generator state the seed installs. *)
Theorem eval_model_deterministic model preprocessor args :
  exists res evs r',
    (forall w : world,
        eval_model model preprocessor args w
        = (res, {| fs := fs w; rng := r'; trace := trace w ++ evs |}))
    /\ captions_generated evs
       = zip (seq 0 (length (fst (dataset args))))
             (generated model preprocessor (use_beam_search args)
                (fst (dataset args)) (snd (dataset args))).
Proof.
  eexists _, _, _. split.
  - intros w. apply eval_model_spec.
  - unfold captions_generated. cbn [omap list_omap].
    apply captions_generated_loop_events.
Qed.

End EvalModel.

(** ** Plain names and lines *)

Section Names.

Lemma string_length_app (x s : string) :
  String.length (x +:+ s) = (String.length x + String.length s)%nat.
Proof.
  induction x as [|c x IH]; [reflexivity|].
  change (String c x +:+ s) with (String c (x +:+ s)). cbn [String.length].
  by rewrite IH.
Qed.

Lemma components_nonempty (p : string) : components p <> [].
Proof.
  destruct p as [|c p]; [done|]. simpl.
  destruct (Ascii.eqb c "/"); [done|]. by destruct (components p).
Qed.

Lemma components_app_slash (a b : string) :
  components (a +:+ String "/" b) = components a ++ components b.
Proof.
  induction a as [|c a IH]; [reflexivity|].
  change (components (String c (a +:+ String "/" b))
          = components (String c a) ++ components b).
  cbn [components]. rewrite IH.
  destruct (Ascii.eqb c "/"); [reflexivity|].
  pose proof (components_nonempty a) as Hne.
  by destruct (components a).
Qed.

Lemma components_plain (c : string) :
  has_char "/" c = false -> components c = [c].
Proof.
  induction c as [|x c IH]; [reflexivity|].
  cbn [has_char components]. intros [Hx Hc]%orb_false_iff.
  rewrite Hx, (IH Hc). reflexivity.
Qed.

Lemma concat_components (p : string) : String.concat "/" (components p) = p.
Proof.
  induction p as [|c p IH]; [reflexivity|].
  cbn [components]. pose proof (components_nonempty p) as Hne.
  destruct (Ascii.eqb c "/") eqn:Hc.
  - apply Ascii.eqb_eq in Hc. subst c.
    destruct (components p) as [|x xs] eqn:Hp; [done|].
    cbn [String.concat]. cbn [String.concat] in IH. by rewrite IH.
  - destruct (components p) as [|x xs] eqn:Hp; [done|].
    cbn [String.concat] in *. destruct xs as [|y ys].
    + by rewrite IH.
    + change (String c (x +:+ "/" +:+ String.concat "/" (y :: ys)) = String c p).
      by rewrite IH.
Qed.

Lemma endswith_slash_last (s : string) :
  endswith s "/" = true -> List.last (components s) "x" = EmptyString.
Proof.
  induction s as [|c s IH]; [discriminate|].
  destruct s as [|c' s].
  - unfold endswith. cbn. destruct (Ascii.eqb c "/") eqn:Hc; [|discriminate].
    reflexivity.
  - intros Hend.
    assert (Hrest : endswith (String c' s) "/" = true).
    { unfold endswith in Hend |- *. cbn [String.length] in Hend |- *.
      apply andb_true_iff in Hend as [_ Hend]. apply andb_true_iff. split; [done|].
      replace (S (S (String.length s)) - 1)%nat with (S (String.length s)) in Hend by lia.
      replace (S (String.length s) - 1)%nat with (String.length s) by lia.
      exact Hend. }
    specialize (IH Hrest).
    pose proof (concat_components (String c' s)) as Hcat.
    remember (String c' s) as rest eqn:Hr.
    cbn [components].
    destruct (components rest) as [|h t] eqn:Hcomp.
    { by destruct (components_nonempty rest). }
    destruct (Ascii.eqb c "/"); [exact IH|].
    destruct t as [|h' t'].
    + cbn in IH. subst h. cbn in Hcat. congruence.
    + exact IH.
Qed.

Lemma forallb_last {A} (f : A -> bool) (l : list A) (d : A) :
  l <> [] -> forallb f l = true -> f (List.last l d) = true.
Proof.
  induction l as [|x l IH]; [done|]. intros _ [Hx Hl]%andb_true_iff.
  destruct l as [|y l]; [exact Hx|]. by apply IH.
Qed.

Lemma steps_last (p : string) (d : string) :
  steps p <> [] /\ List.last (steps p) d = List.last (components p) d.
Proof.
  unfold steps. pose proof (components_nonempty p) as Hne.
  destruct (components p) as [|x xs]; [done|].
  destruct x as [|c x]; [|done]. by destruct xs.
Qed.

Lemma plain_component_nonempty (c : string) :
  plain_component c = true -> c <> EmptyString.
Proof. by destruct c. Qed.

Lemma plain_component_no_slash (c : string) :
  plain_component c = true -> has_char "/" c = false.
Proof.
  unfold plain_component. rewrite !andb_true_iff, !negb_true_iff. tauto.
Qed.

Lemma plain_component_relative (c : string) :
  plain_component c = true -> startswith c "/" = false.
Proof.
  intros Hc. pose proof (plain_component_no_slash c Hc) as Hs.
  destruct c as [|x c]; [reflexivity|].
  cbn [has_char] in Hs. apply orb_false_iff in Hs as [Hx _].
  unfold startswith. cbn [String.prefix].
  destruct (ascii_dec "/" x) as [<-|?]; [|reflexivity]. discriminate Hx.
Qed.

Lemma plain_path_nonempty (p : string) : plain_path p = true -> p <> EmptyString.
Proof. by destruct p. Qed.

Lemma plain_path_no_trailing_slash (p : string) :
  plain_path p = true -> endswith p "/" = false.
Proof.
  unfold plain_path. intros [_ Hall]%andb_true_iff.
  destruct (endswith p "/") eqn:Hend; [|reflexivity].
  destruct (steps_last p "x") as [Hne Hlast].
  pose proof (forallb_last _ _ "x" Hne Hall) as Hplain.
  rewrite Hlast, (endswith_slash_last p Hend) in Hplain. discriminate Hplain.
Qed.

(** Joined to a plain directory, a plain file name is appended after one
    ["/"]. *)
Lemma path_join_plain (dir file : string) :
  plain_path dir = true -> plain_component file = true ->
  path_join dir file = dir +:+ String "/" file.
Proof.
  intros Hd Hf. unfold path_join.
  rewrite (plain_component_relative file Hf), (plain_path_no_trailing_slash dir Hd).
  pose proof (plain_path_nonempty dir Hd). by destruct dir.
Qed.

Lemma path_join_plain_ne (dir file : string) :
  plain_path dir = true -> plain_component file = true ->
  path_join dir file <> dir.
Proof.
  intros Hd Hf Heq. apply (f_equal String.length) in Heq.
  rewrite (path_join_plain dir file Hd Hf), string_length_app in Heq.
  cbn [String.length] in Heq. lia.
Qed.

(** The scores file lies directly in the scores directory. *)
Lemma parent_path_join (dir file : string) :
  plain_path dir = true -> plain_component file = true ->
  parent (path_join dir file) = Some dir.
Proof.
  intros Hd Hf. rewrite (path_join_plain dir file Hd Hf). unfold parent.
  rewrite components_app_slash,
    (components_plain file (plain_component_no_slash file Hf)), removelast_last.
  pose proof (concat_components dir) as Hcat.
  pose proof (plain_path_nonempty dir Hd) as Hne.
  destruct (components dir) as [|x [|y ys]] eqn:Hc.
  - by destruct (components_nonempty dir).
  - destruct x; [cbn in Hcat; congruence|]. by rewrite Hcat.
  - destruct x; by rewrite Hcat.
Qed.

Lemma tree_lookup (f : gmap string node) (abs : bool) (k : string) (n : node) :
  tree f abs = true -> f !! k = Some n -> key_ok f abs k = true.
Proof.
  unfold tree. rewrite forallb_forall. intros Hall Hk.
  apply (Hall (k, n)). apply list_elem_of_In. by apply elem_of_map_to_list.
Qed.

Lemma scores_ready_names (f : gmap string node) (dir file : string) :
  scores_ready f dir file = true ->
  plain_path dir = true /\ plain_component file = true.
Proof. unfold scores_ready. rewrite !andb_true_iff. tauto. Qed.

Lemma scores_ready_path_ne (f : gmap string node) (dir file : string) :
  scores_ready f dir file = true -> path_join dir file <> dir.
Proof. intros [Hd Hf]%scores_ready_names. by apply path_join_plain_ne. Qed.

Lemma scores_ready_dir (f : gmap string node) (dir file : string) :
  scores_ready f dir file = true -> f !! dir = None \/ f !! dir = Some Dir.
Proof.
  unfold scores_ready. rewrite !andb_true_iff. intros [_ Hdir].
  destruct (f !! dir) as [[| |]|]; auto; discriminate.
Qed.

(** Whatever lies at the scores path lies in an existing scores directory. *)
Lemma scores_ready_file_in_dir (f : gmap string node) (dir file : string) (n : node) :
  scores_ready f dir file = true ->
  f !! path_join dir file = Some n -> f !! dir = Some Dir.
Proof.
  intros Hready Hn. pose proof (scores_ready_names f dir file Hready) as [Hd Hf].
  unfold scores_ready in Hready. rewrite !andb_true_iff in Hready.
  destruct Hready as [[[_ Htree] _] _].
  pose proof (tree_lookup f _ _ n Htree Hn) as Hkey.
  unfold key_ok in Hkey. rewrite !andb_true_iff in Hkey. destruct Hkey as [_ Hpar].
  unfold parent_is_dir in Hpar. rewrite (parent_path_join dir file Hd Hf) in Hpar.
  by destruct (f !! dir) as [[| |]|].
Qed.





End Names.

(** ** The scores file *)

Section ScoresFile.

Context {E : Externals}.

(** [export_metrics], run: the outcome by cases on what the scores path
    names once the directory is there. *)
Lemma export_metrics_run avg dir file mb (w : world) :
  let path := path_join dir file in
  let w1 := with_scores_dir w dir in
  export_metrics avg dir file mb w
  = match fs w1 !! path with
    | Some Dir => (Raise (IsADirectoryError path), w1)
    | Some n =>
        match format_line mb (metrics_text avg) with
        | Ok line => (Ok tt, set_fs w1 (<[path := FText (node_text n +:+ line)]> (fs w1)))
        | Raise e => (Raise e, w1)
        end
    | None =>
        match format_line mb (metrics_text avg) with
        | Ok line => (Ok tt, set_fs w1 (<[path := FText line]> (fs w1)))
        | Raise e => (Raise e, set_fs w1 (<[path := FText EmptyString]> (fs w1)))
        end
    end.
Proof.
  intros path w1. subst path w1.
  unfold export_metrics, with_scores_dir.
  unfold bind at 1. unfold path_exists at 1.
  unfold bind at 1.
  assert (Hdir :
    when (negb match fs w !! dir with Some _ => true | None => false end)
         (makedirs dir) w
    = (Ok tt, match fs w !! dir with
              | Some _ => w
              | None => set_fs w (<[dir := Dir]> (fs w))
              end)).
  { unfold when, makedirs, ret.
    destruct (fs w !! dir) eqn:Hd; cbn [negb]; by rewrite ?Hd. }
  rewrite Hdir. clear Hdir.
  set (w1 := match fs w !! dir with Some _ => w | None => _ end).
  set (path := path_join dir file).
  unfold bind, path_exists, open_file, lift, file_write.
  destruct (fs w1 !! path) as [[| s | j]|] eqn:Hpath; cbn [negb].
  - reflexivity.
  - rewrite Hpath. by destruct (format_line mb (metrics_text avg)).
  - rewrite Hpath. by destruct (format_line mb (metrics_text avg)).
  - destruct (format_line mb (metrics_text avg)) as [line|e]; [|done].
    cbn [fs set_fs]. rewrite lookup_insert_eq. cbn [node_text].
    unfold set_fs. cbn [fs rng trace]. by rewrite insert_insert_eq.
Qed.

Lemma has_newline_app (s1 s2 : string) :
  has_newline (s1 +:+ s2) = has_newline s1 || has_newline s2.
Proof.
  induction s1 as [|c s1 IH]; [reflexivity|].
  simpl. rewrite IH. by rewrite orb_assoc.
Qed.

Lemma line_breaks_app (s1 s2 : string) :
  line_breaks (s1 +:+ s2) = (line_breaks s1 + line_breaks s2)%nat.
Proof.
  induction s1 as [|c s1 IH]; [reflexivity|].
  simpl. rewrite IH. lia.
Qed.

Lemma line_breaks_no_newline (s : string) :
  has_newline s = false -> line_breaks s = O.
Proof.
  induction s as [|c s IH]; [reflexivity|].
  simpl. intros [Hc Hs]%orb_false_iff. rewrite Hc. simpl. auto.
Qed.

Lemma string_app_assoc (s1 s2 s3 : string) :
  (s1 +:+ s2) +:+ s3 = s1 +:+ s2 +:+ s3.
Proof.
  induction s1 as [|c s1 IH]; [reflexivity|].
  change (String c ((s1 +:+ s2) +:+ s3) = String c (s1 +:+ s2 +:+ s3)).
  by rewrite IH.
Qed.

(** The metrics text has no line break when no metric name and no formatted
    value has one. *)
Lemma metrics_text_no_newline (avg : dict) :
  Forall (fun kv => has_newline (fst kv) = false
                    /\ has_newline (format_3f (snd kv)) = false) avg ->
  has_newline (metrics_text avg) = false.
Proof.
  unfold metrics_text.
  assert (Hgen : forall acc, has_newline acc = false ->
    Forall (fun kv => has_newline (fst kv) = false
                      /\ has_newline (format_3f (snd kv)) = false) avg ->
    has_newline
      (fold_left (fun metrics_str '(metric, value) =>
                    metrics_str +:+ (metric +:+ tab +:+ format_3f value +:+ tab))
                 avg acc) = false).
  { induction avg as [|[k v] avg IH]; intros acc Hacc Hall; [exact Hacc|].
    simpl. inversion Hall as [|? ? [Hk Hv] Hrest]; subst. apply IH; [|exact Hrest].
    simpl in Hk, Hv. rewrite !has_newline_app, Hacc, Hk, Hv. reflexivity. }
  intros Hall. by apply Hgen.
Qed.

Lemma with_scores_dir_lookup (w : world) (dir q : string) :
  q <> dir \/ is_Some (fs w !! dir) ->
  fs (with_scores_dir w dir) !! q = fs w !! q.
Proof.
  unfold with_scores_dir. intros Hq.
  destruct (fs w !! dir) eqn:Hd; [reflexivity|].
  destruct Hq as [Hq|[? ?]]; [|done].
  cbn [fs set_fs]. by rewrite lookup_insert_ne.
Qed.

Lemma with_scores_dir_created (w : world) (dir : string) :
  fs w !! dir = None -> fs (with_scores_dir w dir) !! dir = Some Dir.
Proof.
  unfold with_scores_dir. intros ->. cbn [fs set_fs]. apply lookup_insert_eq.
Qed.


End ScoresFile.

(** ** The evaluation branch of [main] *)

Section EvaluationBranch.

Context {E : Externals}.

Lemma unwrap_singletons_fields (args : Args) :
  let args' := unwrap_singletons args in
  seed args' = seed args
  /\ scores_dir args' = scores_dir args
  /\ scores_file args' = scores_file args
  /\ model_basename args' = model_basename args
  /\ processor args' = processor args
  /\ use_beam_search args' = use_beam_search args
  /\ metrics args' = metrics args
  /\ no_splits args' = no_splits args
  /\ no_evaluation args' = no_evaluation args
  /\ export_captions args' = export_captions args
  /\ captions_export_file args' = captions_export_file args.
Proof.
  unfold unwrap_singletons.
  destruct (negb (no_splits args) && (strs_len (splits args) =? 1));
    cbn [annotations_files set_splits];
    destruct (strs_len (annotations_files args) =? 1);
    cbn [img_dirs set_annotations_files set_splits];
    destruct (strs_len (img_dirs args) =? 1);
    cbn; repeat split; reflexivity.
Qed.

Lemma main_after_validation args pth model preprocessor (w : world) :
  captions_import_file args = None ->
  model_pth args = Some pth ->
  passes_validation args = true ->
  load_from_checkpoint pth = Some model ->
  from_pretrained (processor args) = Some preprocessor ->
  let args' := unwrap_singletons args in
  let ds := fst (dataset args') in
  let preds := generated model preprocessor (use_beam_search args) ds
                 (snd (dataset args')) in
  let w3 := evaluated args pth model preprocessor w in
  main args w
  = if export_captions args
    then
      match list_setitem (records ds preds)
              (Z.of_nat (length (records ds preds)) - 1)
              (JObj [("model_basename",
                      JStr (match model_basename args with
                            | Some b => b
                            | None => get_model_basename pth
                            end))]) with
      | Ok captions =>
          bind (open_file (captions_export_file args) ModeW)
               (fun _ => json_dump (JArr captions) (captions_export_file args)) w3
      | Raise e => (Raise e, w3)
      end
    else
      export_metrics
        (if no_evaluation args then metrics_init (metrics args)
         else accumulate (scored ds preds) 0 (metrics_init (metrics args)))
        (scores_dir args) (scores_file args) (JStr (get_model_basename pth)) w3.
Proof.
  intros Himp Hpth Hval Hload Hproc args' ds preds w3.
  unfold passes_validation in Hval.
  apply andb_true_iff in Hval as [Hval H3].
  apply andb_true_iff in Hval as [H1 H2].
  apply negb_true_iff in H1, H2, H3.
  unfold main. rewrite Himp, Hpth.
  rewrite when_false by exact H1.
  rewrite when_false by exact H2.
  rewrite when_false by exact H3.
  fold args'.
  destruct (unwrap_singletons_fields args)
    as (Hseed & Hdir & Hfile & Hmb & Hpr & Hbeam & Hmet & Hns & Hnoev & Hexp & Hcef).
  fold args' in Hseed, Hdir, Hfile, Hmb, Hpr, Hbeam, Hmet, Hns, Hnoev, Hexp, Hcef.
  unfold bind at 1. unfold call_load_from_checkpoint. rewrite Hload.
  unfold bind at 1. unfold call_from_pretrained. rewrite Hpr, Hproc.
  unfold bind at 1. rewrite eval_model_spec.
  rewrite Hexp, Hnoev, Hmet, Hbeam, Hseed, Hns, Hdir, Hfile, Hmb, Hcef.
  fold ds. fold preds.
  assert (Hw3 : {| fs := fs (log (log w (EvLoadCheckpoint pth))
                           (EvFromPretrained (processor args)));
                   rng := snd (loop_events model preprocessor args' ds 0
                                 (snd (dataset args')));
                   trace := trace (log (log w (EvLoadCheckpoint pth))
                                     (EvFromPretrained (processor args)))
                            ++ EvSeed (seed args)
                            :: EvGetSplits (annotations_files args') (img_dirs args')
                                 (splits args') (negb (no_splits args))
                            :: fst (loop_events model preprocessor args' ds 0
                                      (snd (dataset args'))) |} = w3).
  { subst w3. unfold evaluated, log. cbn [fs trace]. fold args'. fold ds.
    f_equal. by rewrite <- !app_assoc. }
  rewrite Hw3.
  destruct (export_captions args); cbn [negb].
  - unfold bind at 1. unfold lift.
    by destruct (list_setitem _ _ _).
  - reflexivity.
Qed.

End EvaluationBranch.

Section EvaluationResults.

Context {E : Externals}.

Lemma generated_length model preprocessor beam ds :
  forall r, length (generated model preprocessor beam ds r) = length ds.
Proof.
  induction ds as [|sample ds IH]; intros r; [reflexivity|].
  cbn [generated]. destruct (generate_caption _ model beam r) as [p r1].
  cbn [length]. by rewrite IH.
Qed.

Lemma records_length ds preds :
  length preds = length ds -> length (records ds preds) = length ds.
Proof.
  unfold records. intros Hlen. rewrite length_zip_with. lia.
Qed.

(** [l[len(l) - 1] = x] on a non-empty list replaces the last element. *)
Lemma list_setitem_last {A} (l : list A) (x : A) :
  l <> [] ->
  list_setitem l (Z.of_nat (length l) - 1) x = Ok (removelast l ++ [x]).
Proof.
  intros Hne. destruct (exists_last Hne) as (l' & y & ->).
  rewrite removelast_last. unfold list_setitem.
  rewrite length_app. cbn [length].
  replace (Z.of_nat (length l' + 1) - 1) with (Z.of_nat (length l')) by lia.
  rewrite norm_index_in_range by lia.
  rewrite insert_app_r_alt by lia. by rewrite Nat.sub_diag.
Qed.

Lemma list_setitem_empty {A} (x : A) :
  list_setitem [] (Z.of_nat (length (@nil A)) - 1) x = Raise IndexError.
Proof. reflexivity. Qed.

(** C10.  When captions are to be exported and the assembled dataset is
    empty, a run that passes the argument checks and loads the model ends in
    [IndexError], raised by the assignment of the sentinel to the last
    element of the empty caption list; no file is written. *)
Theorem main_empty_dataset_export_raises args pth model preprocessor (w : world) :
  captions_import_file args = None ->
  model_pth args = Some pth ->
  export_captions args = true ->
  passes_validation args = true ->
  load_from_checkpoint pth = Some model ->
  from_pretrained (processor args) = Some preprocessor ->
  fst (dataset (unwrap_singletons args)) = [] ->
  exists w', main args w = (Raise IndexError, w') /\ fs w' = fs w.
Proof.
  intros Himp Hpth Hexp Hval Hload Hproc Hds.
  rewrite (main_after_validation args pth model preprocessor) by assumption.
  rewrite Hexp, Hds. cbn [generated records zip_with].
  rewrite list_setitem_empty. eexists. split; reflexivity.
Qed.

(** A successful export run: the document written is the caption list with
    its last element replaced by the sentinel. *)
Lemma main_export_run args pth model preprocessor (w : world) :
  captions_import_file args = None ->
  model_pth args = Some pth ->
  export_captions args = true ->
  passes_validation args = true ->
  load_from_checkpoint pth = Some model ->
  from_pretrained (processor args) = Some preprocessor ->
  fst (dataset (unwrap_singletons args)) <> [] ->
  fs w !! captions_export_file args <> Some Dir ->
  let ds := fst (dataset (unwrap_singletons args)) in
  let recs := records ds (generated model preprocessor (use_beam_search args) ds
                            (snd (dataset (unwrap_singletons args)))) in
  let sentinel :=
    sentinel_record (match model_basename args with
                     | Some b => b
                     | None => get_model_basename pth
                     end) in
  length recs = length ds
  /\ exists w',
      main args w = (Ok tt, w')
      /\ fs w' !! captions_export_file args
         = Some (FJson (JArr (removelast recs ++ [sentinel]))).
Proof.
  intros Himp Hpth Hexp Hval Hload Hproc Hds Hnodir ds recs sentinel.
  assert (Hlen : length recs = length ds).
  { subst recs. apply records_length, generated_length. }
  split; [exact Hlen|].
  rewrite (main_after_validation args pth model preprocessor) by assumption.
  rewrite Hexp. fold ds. fold recs. fold sentinel.
  rewrite list_setitem_last.
  2:{ intros Hnil. apply Hds. fold ds. apply length_zero_iff_nil.
      rewrite <- Hlen, Hnil. reflexivity. }
  unfold bind, open_file, json_dump.
  set (w3 := evaluated args pth model preprocessor w).
  assert (Hfs : fs w3 = fs w) by reflexivity.
  rewrite Hfs.
  destruct (fs w !! captions_export_file args) as [[| s | j]|] eqn:Hfile;
    [done| | |];
    cbn [fs set_fs]; rewrite lookup_insert_eq;
    (eexists; split; [reflexivity|]); cbn [fs set_fs]; apply lookup_insert_eq.
Qed.

(** C1, what the code does.  When captions are exported from a dataset of
    [N >= 1] samples, the run succeeds and the document written to the export
    file is the list of the first [N - 1] caption records followed by the
    sentinel, [N] entries in all: the assignment to
    [captions[len(captions) - 1]] replaces the record of the last sample
    instead of adding an element, so the document is not the [N] records
    followed by the sentinel. *)
Theorem export_replaces_last_record args pth model preprocessor (w : world) :
  captions_import_file args = None ->
  model_pth args = Some pth ->
  export_captions args = true ->
  passes_validation args = true ->
  load_from_checkpoint pth = Some model ->
  from_pretrained (processor args) = Some preprocessor ->
  fst (dataset (unwrap_singletons args)) <> [] ->
  fs w !! captions_export_file args <> Some Dir ->
  let ds := fst (dataset (unwrap_singletons args)) in
  let recs := records ds (generated model preprocessor (use_beam_search args) ds
                            (snd (dataset (unwrap_singletons args)))) in
  let sentinel :=
    sentinel_record (match model_basename args with
                     | Some b => b
                     | None => get_model_basename pth
                     end) in
  exists w' entries,
    main args w = (Ok tt, w')
    /\ fs w' !! captions_export_file args = Some (FJson (JArr entries))
    /\ entries = removelast recs ++ [sentinel]
    /\ length recs = length ds
    /\ length entries = length ds
    /\ entries <> recs ++ [sentinel].
Proof.
  intros Himp Hpth Hexp Hval Hload Hproc Hds Hnodir ds recs sentinel.
  destruct (main_export_run args pth model preprocessor w)
    as (Hlen & w' & Hrun & Hfile); try assumption.
  fold ds in Hlen, Hfile. fold recs in Hlen, Hfile. fold sentinel in Hfile.
  assert (Hrecs : recs <> []).
  { intros Hnil. apply Hds. fold ds. apply length_zero_iff_nil.
    rewrite <- Hlen, Hnil. reflexivity. }
  assert (Hentries : length (removelast recs ++ [sentinel]) = length ds).
  { destruct (exists_last Hrecs) as (l & y & Hl). rewrite <- Hlen, Hl.
    rewrite removelast_last, !length_app. reflexivity. }
  exists w', (removelast recs ++ [sentinel]). repeat split; try done.
  intros Heq. apply (f_equal length) in Heq.
  rewrite Hentries in Heq. rewrite length_app, Hlen in Heq. cbn [length] in Heq. lia.
Qed.

End EvaluationResults.

Section ScoresLine.

Context {E : Externals}.



End ScoresLine.

(** ** The import branch of [main] *)

Section ImportBranch.

Context {E : Externals}.

Lemma import_step_run items done j rest pr avg f r t :
  items = done ++ j :: rest ->
  scored_as j pr ->
  import_step (JArr items) 0 (length done) avg {| fs := f; rng := r; trace := t |}
  = (Ok (compute_captioning_metrics (fst pr) (snd pr) avg
           (Z.of_nat (length done)) 0),
     {| fs := f; rng := r;
        trace := t ++ [EvMetrics (Z.of_nat (length done)) 0 (fst pr) (snd pr)] |}).
Proof.
  intros -> [Hp Hr]. unfold import_step, bind, lift. cbn [py_getitem_int].
  rewrite list_getitem_middle, Hp, Hr. reflexivity.
Qed.

Lemma import_loop_spec items tail :
  forall recs pairs, Forall2 scored_as recs pairs ->
  forall done avg f r t,
    items = done ++ recs ++ tail ->
    for_loop (import_step (JArr items) 0) (seq (length done) (length recs)) avg
      {| fs := f; rng := r; trace := t |}
    = (Ok (accumulate pairs (Z.of_nat (length done)) avg),
       {| fs := f; rng := r; trace := t ++ metric_events pairs (length done) |}).
Proof.
  induction 1 as [|j pr recs pairs Hj Hrest IH]; intros done avg f r t Hitems.
  - simpl. unfold ret. by rewrite app_nil_r.
  - cbn [length seq for_loop]. unfold bind at 1.
    rewrite (import_step_run items done j (recs ++ tail) pr) by done.
    specialize (IH (done ++ [j])).
    rewrite length_app in IH. cbn [length] in IH.
    replace (length done + 1)%nat with (S (length done)) in IH by lia.
    rewrite IH by (by rewrite Hitems, <- app_assoc).
    destruct pr as [p rf]. cbn [accumulate metric_events fst snd].
    rewrite Nat2Z.inj_succ, <- Z.add_1_r. f_equal. f_equal.
    by rewrite <- app_assoc.
Qed.

Lemma import_metrics_run args recs pairs last (w : world) :
  Forall2 scored_as recs pairs ->
  import_metrics args (JArr (recs ++ [last])) w
  = (Ok (accumulate pairs 0 (metrics_init (metrics args))),
     {| fs := fs w; rng := rng w; trace := trace w ++ metric_events pairs 0 |}).
Proof.
  intros Hrecs. unfold import_metrics, bind, lift. cbn [py_len].
  unfold for_range. rewrite length_app. cbn [length].
  replace (Z.to_nat (Z.of_nat (length recs + 1) - 1)) with (length recs) by lia.
  destruct w as [f r t]. cbn [fs rng trace].
  exact (import_loop_spec (recs ++ [last]) [last] recs pairs Hrecs []
           (metrics_init (metrics args)) f r t eq_refl).
Qed.

Lemma list_getitem_last {A} (l : list A) (x : A) :
  list_getitem (l ++ [x]) (Z.of_nat (length (l ++ [x])) - 1) = Ok x.
Proof.
  rewrite length_app. cbn [length].
  replace (Z.of_nat (length l + 1) - 1) with (Z.of_nat (length l)) by lia.
  apply list_getitem_middle.
Qed.

(** The import branch on a document made of scored entries and a sentinel. *)
Lemma main_import_run args file recs pairs b (w : world) :
  captions_import_file args = Some file ->
  fs w !! file = Some (FJson (JArr (recs ++ [sentinel_record b]))) ->
  Forall2 scored_as recs pairs ->
  main args w
  = export_metrics (accumulate pairs 0 (metrics_init (metrics args)))
      (scores_dir args) (scores_file args) (JStr b)
      {| fs := fs w; rng := rng w; trace := trace w ++ metric_events pairs 0 |}.
Proof.
  intros Himp Hfile Hrecs. unfold main. rewrite Himp.
  unfold bind at 1. unfold json_load. rewrite Hfile.
  unfold bind at 1. unfold lift at 1. cbn [py_len].
  unfold bind at 1. unfold lift at 1. cbn [py_getitem_int].
  rewrite list_getitem_last.
  unfold bind at 1. unfold lift at 1.
  change (py_getitem_str (sentinel_record b) "model_basename") with (Ok (JStr b)).
  unfold bind at 1. by rewrite (import_metrics_run args recs pairs).
Qed.

Lemma records_scored_as ds :
  forall preds, Forall2 scored_as (records ds preds) (scored ds preds).
Proof.
  induction ds as [|sample ds IH]; intros [|p preds]; try constructor.
  - split; reflexivity.
  - apply IH.
Qed.

Lemma accumulate_app pairs1 pairs2 :
  forall i avg,
    accumulate (pairs1 ++ pairs2) i avg
    = accumulate pairs2 (i + Z.of_nat (length pairs1)) (accumulate pairs1 i avg).
Proof.
  induction pairs1 as [|[p rf] pairs1 IH]; intros i avg.
  - simpl. by rewrite Z.add_0_r.
  - cbn [app accumulate length]. rewrite IH. f_equal. lia.
Qed.

(** The zero-counter property of the logs seen through [counters_passed]. *)
Lemma counters_passed_zero (evs : list event) :
  Forall zero_counter evs -> Forall (fun ic => snd ic = 0) (counters_passed evs).
Proof.
  induction 1 as [|e evs Hz _ IH]; [constructor|].
  unfold counters_passed in *. cbn [omap list_omap].
  destruct e; try exact IH. constructor; [exact Hz|exact IH].
Qed.

(** C3, what the code does.  In both loops, the fresh evaluation and the
    import, every call of the metric computation receives the counter [0]:
    [no_meteor_count] is set to [0] before the loop and never assigned
    again, whatever happened on the earlier samples.  In the evaluation loop
    the calls are those of the iterations [0 .. N-1], each with counter [0];
    in the import loop, whatever the document, no call has another counter. *)
Theorem no_meteor_count_stays_zero model preprocessor args data (w : world) :
  (exists res evs r',
      eval_model model preprocessor args w
      = (res, {| fs := fs w; rng := r'; trace := trace w ++ evs |})
      /\ counters_passed evs
         = if no_evaluation args then []
           else map (fun i => (Z.of_nat i, 0))
                    (seq 0 (length (fst (dataset args)))))
  /\ (exists res evs r',
        import_metrics args data w
        = (res, {| fs := fs w; rng := r'; trace := trace w ++ evs |})
        /\ Forall (fun ic => snd ic = 0) (counters_passed evs)).
Proof.
  split.
  - eexists _, _, _. split; [apply eval_model_spec|].
    unfold counters_passed. cbn [omap list_omap].
    apply counters_passed_loop_events.
  - destruct w as [f r t]. cbn [fs trace].
    destruct (logs_import_metrics args data r) as (res & evs & r' & Hevs & Hrun).
    exists res, evs, r'. split; [apply Hrun | by apply counters_passed_zero].
Qed.

End ImportBranch.

(** ** Export followed by import *)

Section RoundTrip.

Context {E : Externals}.

Lemma records_snoc ds sample preds p :
  length preds = length ds ->
  records (ds ++ [sample]) (preds ++ [p])
  = records ds preds ++ [caption_record (filename sample) p (raw_captions sample)].
Proof. intros Hlen. unfold records. by rewrite zip_with_app. Qed.

Lemma scored_snoc ds sample preds p :
  length preds = length ds ->
  scored (ds ++ [sample]) (preds ++ [p])
  = scored ds preds ++ [(json_of_strs p, json_of_strs (raw_captions sample))].
Proof. intros Hlen. unfold scored. by rewrite zip_with_app. Qed.

Lemma scored_length ds preds :
  length preds = length ds -> length (scored ds preds) = length ds.
Proof. unfold scored. intros Hlen. rewrite length_zip_with. lia. Qed.

(** C2, what the code does.  A run that evaluates and exports a dataset of
    [N >= 1] samples returns the accumulator [direct] of all [N] samples and
    writes a document without the last sample's record; the import of that
    document accumulates [imported] over the first [N - 1] samples only, and
    hands it to [export_metrics].  The two accumulators are one call of the
    metric computation apart: [direct] is [imported] updated with the last
    sample. *)
Theorem roundtrip_skips_last_sample args iargs pth model preprocessor
    ds' last_sample (w : world) :
  captions_import_file args = None ->
  model_pth args = Some pth ->
  export_captions args = true ->
  no_evaluation args = false ->
  passes_validation args = true ->
  load_from_checkpoint pth = Some model ->
  from_pretrained (processor args) = Some preprocessor ->
  fst (dataset (unwrap_singletons args)) = ds' ++ [last_sample] ->
  fs w !! captions_export_file args <> Some Dir ->
  captions_import_file iargs = Some (captions_export_file args) ->
  metrics iargs = metrics args ->
  let preds := generated model preprocessor (use_beam_search args)
                 (ds' ++ [last_sample]) (snd (dataset (unwrap_singletons args))) in
  let init := metrics_init (metrics args) in
  let direct := accumulate (scored (ds' ++ [last_sample]) preds) 0 init in
  let imported := accumulate (scored ds' (removelast preds)) 0 init in
  exists w1 w2 b,
    (forall w0, exists captions,
        fst (eval_model model preprocessor (unwrap_singletons args) w0)
        = Ok (captions, direct))
    /\ main args w = (Ok tt, w1)
    /\ main iargs w1
       = export_metrics imported (scores_dir iargs) (scores_file iargs) (JStr b) w2
    /\ direct
       = compute_captioning_metrics (json_of_strs (List.last preds []))
           (json_of_strs (raw_captions last_sample)) imported
           (Z.of_nat (length ds')) 0.
Proof.
  intros Himp Hpth Hexp Hnoev Hval Hload Hproc Hds Hnodir Hiimp Hmet
         preds init direct imported.
  destruct (unwrap_singletons_fields args)
    as (_ & _ & _ & _ & _ & Hbeam & Hmet' & _ & Hnoev' & _ & _).
  assert (Hplen : length preds = S (length ds')).
  { subst preds. rewrite generated_length, length_app. cbn [length]. lia. }
  assert (Hpne : preds <> []) by (by destruct preds).
  pose proof (app_removelast_last [] Hpne) as Hsplit.
  set (ps' := removelast preds) in *. set (p := List.last preds []) in *.
  assert (Hps' : length ps' = length ds').
  { apply (f_equal length) in Hsplit. rewrite length_app in Hsplit.
    cbn [length] in Hsplit. lia. }
  destruct (main_export_run args pth model preprocessor w)
    as (_ & w1 & Hrun & Hfile); try assumption.
  { rewrite Hds. by destruct ds'. }
  rewrite Hds in Hfile. fold preds in Hfile.
  rewrite Hsplit, records_snoc, removelast_last in Hfile by exact Hps'.
  eexists w1, _, _. split; [|split; [exact Hrun|split]].
  - intros w0. eexists. rewrite eval_model_spec. cbn [fst].
    rewrite Hnoev', Hnoev, Hmet', Hbeam, Hds. reflexivity.
  - rewrite (main_import_run iargs _ _ (scored ds' ps') _ w1 Hiimp Hfile)
      by apply records_scored_as.
    rewrite Hmet. reflexivity.
  - subst direct imported. rewrite Hsplit at 1.
    rewrite scored_snoc by exact Hps'. rewrite accumulate_app.
    cbn [accumulate]. rewrite scored_length by exact Hps'.
    reflexivity.
Qed.

End RoundTrip.

(** * Further properties of the driver *)

(** ** Configuration errors *)

Ltac config_msg := unfold config_errors; rewrite !elem_of_cons; auto 6.

Section ConfigurationErrors.

Context {E : Externals}.

Lemma passes_validation_checks (args : Args) :
  passes_validation args
  = negb (splits_mismatch args) && negb (bad_export_path args)
    && negb (nothing_to_do args).
Proof. reflexivity. Qed.

(** The evaluation branch up to its first failed check. *)
Lemma main_checks (args : Args) (w : world) :
  captions_import_file args = None ->
  (model_pth args = None ->
   main args w = (Raise (Exception err_no_source), w))
  /\ (is_Some (model_pth args) -> splits_mismatch args = true ->
      main args w = (Raise (Exception err_splits), w))
  /\ (is_Some (model_pth args) -> splits_mismatch args = false ->
      bad_export_path args = true ->
      main args w = (Raise (Exception err_export_file), w))
  /\ (is_Some (model_pth args) -> splits_mismatch args = false ->
      bad_export_path args = false -> nothing_to_do args = true ->
      main args w = (Raise (Exception err_no_evaluation), w)).
Proof.
  intros Himp. unfold main. rewrite Himp.
  unfold splits_mismatch, bad_export_path, nothing_to_do.
  repeat split.
  - by intros ->.
  - intros [pth ->] H1. by rewrite when_raise_true.
  - intros [pth ->] H1 H2. rewrite when_false by exact H1.
    by rewrite when_raise_true.
  - intros [pth ->] H1 H2 H3. rewrite when_false by exact H1.
    rewrite when_false by exact H2. by rewrite when_raise_true.
Qed.

(** X1.  The four configuration checks are made in a fixed order and the
    first that fails decides the message: a missing [model_pth] wins over a
    split-count mismatch, that over a bad export path, that over the
    combination "no export, no evaluation".  In each case the world comes
    back unchanged. *)
Theorem main_first_failed_check (args : Args) (w : world) :
  captions_import_file args = None ->
  (model_pth args = None ->
   main args w = (Raise (Exception err_no_source), w))
  /\ (is_Some (model_pth args) -> splits_mismatch args = true ->
      main args w = (Raise (Exception err_splits), w))
  /\ (is_Some (model_pth args) -> splits_mismatch args = false ->
      bad_export_path args = true ->
      main args w = (Raise (Exception err_export_file), w))
  /\ (is_Some (model_pth args) -> splits_mismatch args = false ->
      bad_export_path args = false -> nothing_to_do args = true ->
      main args w = (Raise (Exception err_no_evaluation), w)).
Proof. apply main_checks. Qed.

Lemma main_config_error (args : Args) (w : world) :
  captions_import_file args = None ->
  model_pth args = None \/ passes_validation args = false ->
  exists msg, main args w = (Raise (Exception msg), w) /\ msg ∈ config_errors.
Proof.
  intros Himp Hbad.
  destruct (main_checks args w Himp) as (H0 & H1 & H2 & H3).
  destruct (model_pth args) as [pth|] eqn:Hpth.
  2:{ exists err_no_source. split; [by apply H0|]. config_msg. }
  destruct Hbad as [?|Hval]; [done|].
  rewrite passes_validation_checks in Hval.
  destruct (splits_mismatch args) eqn:Hs.
  { exists err_splits. split; [by apply H1|]. config_msg. }
  destruct (bad_export_path args) eqn:He.
  { exists err_export_file. split; [by apply H2|]. config_msg. }
  destruct (nothing_to_do args) eqn:Hn; [|done].
  exists err_no_evaluation. split; [by apply H3|]. config_msg.
Qed.

Lemma main_load_fails args pth (w : world) :
  captions_import_file args = None ->
  model_pth args = Some pth ->
  passes_validation args = true ->
  load_from_checkpoint pth = None ->
  main args w
  = (Raise (LibraryError "load_from_checkpoint"), log w (EvLoadCheckpoint pth)).
Proof.
  intros Himp Hpth Hval Hload. unfold passes_validation in Hval.
  apply andb_true_iff in Hval as [Hval H3].
  apply andb_true_iff in Hval as [H1 H2].
  apply negb_true_iff in H1, H2, H3.
  unfold main. rewrite Himp, Hpth.
  rewrite when_false by exact H1. rewrite when_false by exact H2.
  rewrite when_false by exact H3.
  unfold bind at 1. unfold call_load_from_checkpoint. by rewrite Hload.
Qed.

Lemma main_processor_fails args pth model (w : world) :
  captions_import_file args = None ->
  model_pth args = Some pth ->
  passes_validation args = true ->
  load_from_checkpoint pth = Some model ->
  from_pretrained (processor args) = None ->
  main args w
  = (Raise (LibraryError "from_pretrained"),
     log (log w (EvLoadCheckpoint pth)) (EvFromPretrained (processor args))).
Proof.
  intros Himp Hpth Hval Hload Hproc. unfold passes_validation in Hval.
  apply andb_true_iff in Hval as [Hval H3].
  apply andb_true_iff in Hval as [H1 H2].
  apply negb_true_iff in H1, H2, H3.
  unfold main. rewrite Himp, Hpth.
  rewrite when_false by exact H1. rewrite when_false by exact H2.
  rewrite when_false by exact H3.
  destruct (unwrap_singletons_fields args) as (_ & _ & _ & _ & Hpr & _).
  unfold bind at 1. unfold call_load_from_checkpoint. rewrite Hload.
  unfold bind at 1. unfold call_from_pretrained. by rewrite Hpr, Hproc.
Qed.

(** X2.  A checkpoint or a processor that cannot be loaded ends the run with
    the library's error right there: the files and the generator are as
    before, and the log holds the loading calls only; the seed is not
    installed and no dataset is assembled. *)
Theorem main_load_failure_aborts args pth (w : world) :
  captions_import_file args = None ->
  model_pth args = Some pth ->
  passes_validation args = true ->
  load_from_checkpoint pth = None
  \/ from_pretrained (processor args) = None ->
  exists callee evs w',
    main args w = (Raise (LibraryError callee), w')
    /\ fs w' = fs w /\ rng w' = rng w /\ trace w' = trace w ++ evs
    /\ (evs = [EvLoadCheckpoint pth]
        \/ evs = [EvLoadCheckpoint pth; EvFromPretrained (processor args)]).
Proof.
  intros Himp Hpth Hval Hfail.
  destruct (load_from_checkpoint pth) as [model|] eqn:Hload.
  - destruct Hfail as [?|Hproc]; [done|].
    eexists _, _, _. rewrite (main_processor_fails args pth model) by done.
    split; [reflexivity|]. repeat split; [|by right].
    unfold log. cbn [trace]. by rewrite <- app_assoc.
  - eexists _, _, _. rewrite (main_load_fails args pth) by done.
    split; [reflexivity|]. repeat split. by left.
Qed.

End ConfigurationErrors.

(** ** More on the scores file *)

Section ScoresFileMore.

Context {E : Externals}.

Lemma format_line_not_config_error mb metrics_str e :
  format_line mb metrics_str = Raise e -> forall msg, e <> Exception msg.
Proof.
  unfold format_line, format_s. destruct mb; intros H msg; by inversion H.
Qed.

(** What every call of [export_metrics] keeps. *)
Lemma export_metrics_keeps avg dir file mb (w : world) :
  exists res w',
    export_metrics avg dir file mb w = (res, w')
    /\ rng w' = rng w /\ trace w' = trace w
    /\ (forall q, q <> dir -> q <> path_join dir file -> fs w' !! q = fs w !! q)
    /\ (forall q, is_Some (fs w !! q) -> is_Some (fs w' !! q))
    /\ (forall q, fs w !! q = Some Dir -> fs w' !! q = Some Dir)
    /\ not_config_error res.
Proof.
  rewrite export_metrics_run. set (path := path_join dir file).
  set (w1 := with_scores_dir w dir).
  assert (H1 : rng w1 = rng w /\ trace w1 = trace w
               /\ (forall q, q <> dir -> fs w1 !! q = fs w !! q)
               /\ (forall q, is_Some (fs w !! q) -> fs w1 !! q = fs w !! q)).
  { subst w1. unfold with_scores_dir.
    destruct (fs w !! dir) eqn:Hd; repeat split; try done; cbn [fs set_fs].
    - intros q Hq. by rewrite lookup_insert_ne.
    - intros q [n Hn]. rewrite lookup_insert_ne; [done|]. congruence. }
  destruct H1 as (Hr & Ht & Hother & Hsome).
  assert (Hsame : forall (res : result unit),
    not_config_error res ->
    exists res' w',
      (res, w1) = (res', w')
      /\ rng w' = rng w /\ trace w' = trace w
      /\ (forall q, q <> dir -> q <> path -> fs w' !! q = fs w !! q)
      /\ (forall q, is_Some (fs w !! q) -> is_Some (fs w' !! q))
      /\ (forall q, fs w !! q = Some Dir -> fs w' !! q = Some Dir)
      /\ not_config_error res').
  { intros res Hres. exists res, w1. repeat split; try done.
    - intros q Hq _. by apply Hother.
    - intros q Hq. by rewrite Hsome.
    - intros q Hq. by rewrite Hsome. }
  assert (Hwrite : forall (res : result unit) text,
    fs w1 !! path <> Some Dir ->
    not_config_error res ->
    exists res' w',
      (res, set_fs w1 (<[path := FText text]> (fs w1))) = (res', w')
      /\ rng w' = rng w /\ trace w' = trace w
      /\ (forall q, q <> dir -> q <> path -> fs w' !! q = fs w !! q)
      /\ (forall q, is_Some (fs w !! q) -> is_Some (fs w' !! q))
      /\ (forall q, fs w !! q = Some Dir -> fs w' !! q = Some Dir)
      /\ not_config_error res').
  { intros res text Hnd Hres. eexists _, _. split; [reflexivity|].
    cbn [fs rng trace set_fs]. repeat split; try done.
    - intros q Hq Hq'. rewrite lookup_insert_ne by done. by apply Hother.
    - intros q Hq. destruct (decide (path = q)) as [Heq|Hne].
      + rewrite <- Heq, lookup_insert_eq. by eexists.
      + rewrite lookup_insert_ne by done. by rewrite Hsome.
    - intros q Hq. assert (Hq1 : fs w1 !! q = Some Dir).
      { rewrite Hsome; [done|by eexists]. }
      rewrite lookup_insert_ne; [done|]. intros Heq. apply Hnd. by rewrite Heq. }
  assert (Hok : not_config_error (Ok tt)) by (by intros msg).
  assert (Hraise : forall e, (forall msg, e <> Exception msg) ->
             not_config_error (@Raise unit e)).
  { intros e He msg Heq. injection Heq as ->. by apply (He msg). }
  destruct (fs w1 !! path) as [[| s | j]|] eqn:Hp.
  - apply Hsame. by apply Hraise.
  - destruct (format_line mb (metrics_text avg)) as [line|e] eqn:Hf.
    + by apply Hwrite.
    + apply Hsame, Hraise. by apply (format_line_not_config_error _ _ _ Hf).
  - destruct (format_line mb (metrics_text avg)) as [line|e] eqn:Hf.
    + by apply Hwrite.
    + apply Hsame, Hraise. by apply (format_line_not_config_error _ _ _ Hf).
  - destruct (format_line mb (metrics_text avg)) as [line|e] eqn:Hf.
    + by apply Hwrite.
    + apply Hwrite; [done|]. apply Hraise.
      by apply (format_line_not_config_error _ _ _ Hf).
Qed.

Lemma export_metrics_succeeds avg dir file b (w : world) :
  let path := path_join dir file in
  let w1 := with_scores_dir w dir in
  fs w !! path <> Some Dir ->
  path <> dir \/ is_Some (fs w !! dir) ->
  export_metrics avg dir file (JStr b) w
  = (Ok tt,
     set_fs w1 (<[path := FText (file_text w path +:+ b +:+ tab
                                  +:+ metrics_text avg +:+ newline)]> (fs w1))).
Proof.
  intros path w1 Hnd Hdir. rewrite export_metrics_run. fold path. fold w1.
  cbn [format_line format_s]. unfold file_text.
  assert (Hlook : fs w1 !! path = fs w !! path)
    by (by apply with_scores_dir_lookup).
  rewrite Hlook. by destruct (fs w !! path) as [[| s | j]|].
Qed.

(** X3.  On plain names, when the scores path names nothing yet, a call
    with a string model name succeeds; afterwards the scores directory is
    there, the scores file holds exactly the one line of this call, and
    nothing else has changed. *)
Theorem export_metrics_creates_file avg dir file b (w : world) :
  let path := path_join dir file in
  scores_ready (fs w) dir file = true ->
  fs w !! path = None ->
  exists w',
    export_metrics avg dir file (JStr b) w = (Ok tt, w')
    /\ fs w' !! path = Some (FText (b +:+ tab +:+ metrics_text avg +:+ newline))
    /\ fs w' !! dir = Some Dir
    /\ (forall q, q <> path -> q <> dir -> fs w' !! q = fs w !! q).
Proof.
  intros path Hready Hnone.
  pose proof (scores_ready_path_ne _ _ _ Hready) as Hne. fold path in Hne.
  rewrite export_metrics_succeeds; fold path; [|congruence|by left].
  eexists. split; [reflexivity|]. cbn [fs set_fs]. unfold file_text.
  rewrite Hnone, lookup_insert_eq. split; [done|]. split.
  - rewrite lookup_insert_ne by done.
    destruct (scores_ready_dir _ _ _ Hready) as [Hd|Hd].
    + by apply with_scores_dir_created.
    + rewrite with_scores_dir_lookup by (right; rewrite Hd; by eexists). exact Hd.
  - intros q Hq Hq'. rewrite lookup_insert_ne by done.
    apply with_scores_dir_lookup. by left.
Qed.

(** X4.  On plain names, when the scores path names a directory, the call
    raises [IsADirectoryError] whatever the model name is, and leaves the
    world as it was. *)
Theorem export_metrics_on_directory avg dir file mb (w : world) :
  let path := path_join dir file in
  scores_ready (fs w) dir file = true ->
  fs w !! path = Some Dir ->
  export_metrics avg dir file mb w = (Raise (IsADirectoryError path), w).
Proof.
  intros path Hready Hp. rewrite export_metrics_run. fold path.
  pose proof (scores_ready_file_in_dir _ _ _ _ Hready Hp) as Hd.
  unfold with_scores_dir. rewrite Hd. by rewrite Hp.
Qed.

(** X5.  On plain names, a model name that is not a string (it can come
    from an imported document) makes the call fail in the formatting of the
    line, after the scores file was opened: an existing scores file keeps
    its content, a missing one is left behind empty. *)
Theorem export_metrics_bad_name avg dir file mb e (w : world) :
  let path := path_join dir file in
  scores_ready (fs w) dir file = true ->
  format_s mb = Raise e ->
  fs w !! path <> Some Dir ->
  exists w',
    export_metrics avg dir file mb w = (Raise e, w')
    /\ fs w' !! path
       = match fs w !! path with
         | Some n => Some n
         | None => Some (FText EmptyString)
         end.
Proof.
  intros path Hready Hfmt Hnd. rewrite export_metrics_run. fold path.
  pose proof (scores_ready_path_ne _ _ _ Hready) as Hne. fold path in Hne.
  set (w1 := with_scores_dir w dir).
  assert (Hlook : fs w1 !! path = fs w !! path)
    by (apply with_scores_dir_lookup; by left).
  unfold format_line. rewrite Hfmt, Hlook.
  destruct (fs w !! path) as [[| s | j]|] eqn:Hp; [done| | |];
    eexists; (split; [reflexivity|]); cbn [fs set_fs]; try done.
  apply lookup_insert_eq.
Qed.

(** X6.  On plain names and whatever the model name and the metrics are, a
    call of [export_metrics] leaves the generator and the log alone, changes
    no path other than the scores directory and the scores file, removes
    nothing, turns no directory into a file, and raises none of the
    driver's configuration exceptions. *)
Theorem export_metrics_touches_only_scores avg dir file mb (w : world) :
  scores_ready (fs w) dir file = true ->
  exists res w',
    export_metrics avg dir file mb w = (res, w')
    /\ rng w' = rng w /\ trace w' = trace w
    /\ (forall q, q <> dir -> q <> path_join dir file -> fs w' !! q = fs w !! q)
    /\ (forall q, is_Some (fs w !! q) -> is_Some (fs w' !! q))
    /\ (forall q, fs w !! q = Some Dir -> fs w' !! q = Some Dir)
    /\ not_config_error res.
Proof. intros _. apply export_metrics_keeps. Qed.


End ScoresFileMore.

(** ** Computations that only replay metrics *)

Section ReplayLemmas.

Context {E : Externals}.

Lemma list_getitem_not_config_error {A} (l : list A) (i : Z) :
  not_config_error (list_getitem l i).
Proof.
  unfold list_getitem. intros msg.
  destruct (norm_index _ i) as [n|]; [|done]. by destruct (l !! n).
Qed.

Lemma py_len_not_config_error (v : json) : not_config_error (py_len v).
Proof. intros msg. by destruct v. Qed.

Lemma py_getitem_int_not_config_error (v : json) (i : Z) :
  not_config_error (py_getitem_int v i).
Proof.
  intros msg. destruct v; try done.
  - cbn [py_getitem_int]. by destruct (norm_index _ i).
  - apply list_getitem_not_config_error.
Qed.

Lemma py_getitem_str_not_config_error (v : json) (k : string) :
  not_config_error (py_getitem_str v k).
Proof.
  intros msg. destruct v; try done.
  cbn [py_getitem_str]. by destruct (assoc_get _ k).
Qed.

Lemma replays_ret {A} (a : A) : replays (ret a).
Proof.
  intros w. exists (Ok a), []. rewrite app_nil_r. by destruct w.
Qed.

Lemma replays_lift {A} (x : result A) : not_config_error x -> replays (lift x).
Proof.
  intros Hx w. exists x, []. rewrite app_nil_r. by destruct w.
Qed.

Lemma replays_bind {A B} (c : M A) (k : A -> M B) :
  replays c -> (forall a, replays (k a)) -> replays (bind c k).
Proof.
  intros Hc Hk w. destruct (Hc w) as (res & evs & Hrun & Hevs & Hres).
  unfold bind. rewrite Hrun. destruct res as [a|e].
  - destruct (Hk a {| fs := fs w; rng := rng w; trace := trace w ++ evs |})
      as (res2 & evs2 & Hrun2 & Hevs2 & Hres2).
    exists res2, (evs ++ evs2). rewrite Hrun2. cbn [fs rng trace].
    rewrite app_assoc. split; [done|]. split; [by apply Forall_app|done].
  - exists (Raise e), evs. repeat split; try done.
    intros msg Heq. injection Heq as ->. by apply (Hres msg).
Qed.

Lemma replays_for_loop {S} (body : nat -> S -> M S) (idx : list nat) :
  (forall i st, replays (body i st)) ->
  forall st, replays (for_loop body idx st).
Proof.
  intros Hbody. induction idx as [|i idx IH]; intros st; simpl.
  - apply replays_ret.
  - apply replays_bind; [apply Hbody | exact IH].
Qed.

Lemma replays_compute (preds refs : json) (avg : dict) (i c : Z) :
  replays (call_compute_captioning_metrics preds refs avg i c).
Proof.
  intros w. eexists _, [_]. split; [reflexivity|]. split; [|done].
  by repeat constructor.
Qed.

Lemma replays_json_load (p : string) : replays (json_load p).
Proof.
  intros w. unfold json_load.
  assert (Hw : w = {| fs := fs w; rng := rng w; trace := trace w ++ [] |}).
  { rewrite app_nil_r. by destruct w. }
  destruct (fs w !! p) as [[| s | j]|].
  - exists (Raise (IsADirectoryError p)), []. by rewrite <- Hw.
  - destruct (json_loads s).
    + eexists _, []. by rewrite <- Hw.
    + exists (Raise JSONDecodeError), []. by rewrite <- Hw.
  - eexists _, []. by rewrite <- Hw.
  - exists (Raise (FileNotFoundError p)), []. by rewrite <- Hw.
Qed.

Lemma replays_import_step data i avg : replays (import_step data 0 i avg).
Proof.
  unfold import_step.
  apply replays_bind; [apply replays_lift, py_getitem_int_not_config_error|].
  intros entry.
  apply replays_bind; [apply replays_lift, py_getitem_str_not_config_error|].
  intros preds.
  apply replays_bind; [apply replays_lift, py_getitem_int_not_config_error|].
  intros entry'.
  apply replays_bind; [apply replays_lift, py_getitem_str_not_config_error|].
  intros refs. apply replays_compute.
Qed.

Lemma replays_import_metrics args data : replays (import_metrics args data).
Proof.
  unfold import_metrics.
  apply replays_bind; [apply replays_lift, py_len_not_config_error|].
  intros n. apply replays_for_loop. intros i st. apply replays_import_step.
Qed.

Lemma replays_import_prefix args file : replays (import_prefix args file).
Proof.
  unfold import_prefix.
  apply replays_bind; [apply replays_json_load|]. intros data.
  apply replays_bind; [apply replays_lift, py_len_not_config_error|]. intros n.
  apply replays_bind; [apply replays_lift, py_getitem_int_not_config_error|].
  intros last.
  apply replays_bind; [apply replays_lift, py_getitem_str_not_config_error|].
  intros basename.
  apply replays_bind; [apply replays_import_metrics|]. intros avg.
  apply replays_ret.
Qed.

Lemma main_import_prefix args file (w : world) :
  captions_import_file args = Some file ->
  main args w
  = bind (import_prefix args file)
         (fun '(avg_metrics, basename) =>
            export_metrics avg_metrics (scores_dir args) (scores_file args) basename)
         w.
Proof.
  intros Himp. unfold main, import_prefix. rewrite Himp. unfold bind, ret.
  destruct (json_load file w) as [[data|e] w1]; [|done].
  destruct (lift (py_len data) w1) as [[n|e] w2]; [|done].
  destruct (lift (py_getitem_int data (n - 1)) w2) as [[last|e] w3]; [|done].
  destruct (lift (py_getitem_str last "model_basename") w3) as [[b|e] w4]; [|done].
  by destruct (import_metrics args data w4) as [[avg|e] w5].
Qed.

(** The import branch: either it stops before the scores are written, or it
    ends in [export_metrics]; up to there only metric calls were logged. *)
Lemma main_import_shape args file (w : world) :
  captions_import_file args = Some file ->
  exists evs,
    Forall is_metrics_call evs
    /\ let w1 := {| fs := fs w; rng := rng w; trace := trace w ++ evs |} in
       (exists e, main args w = (Raise e, w1) /\ forall msg, e <> Exception msg)
       \/ (exists avg mb,
             main args w
             = export_metrics avg (scores_dir args) (scores_file args) mb w1).
Proof.
  intros Himp. rewrite (main_import_prefix args file w Himp).
  destruct (replays_import_prefix args file w) as (res & evs & Hrun & Hevs & Hres).
  exists evs. split; [done|]. cbn zeta. unfold bind. rewrite Hrun.
  destruct res as [[avg mb]|e].
  - right. by exists avg, mb.
  - left. exists e. split; [done|]. intros msg ->. by apply (Hres msg).
Qed.

End ReplayLemmas.

(** ** What a run can and cannot do *)

Section RunShape.

Context {E : Externals}.

Lemma list_setitem_raises {A} (l : list A) (i : Z) (x : A) (e : exn) :
  list_setitem l i x = Raise e -> e = IndexError.
Proof.
  unfold list_setitem. destruct (norm_index _ i); intros H; by inversion H.
Qed.

(** [with open(p, "w") as f: json.dump(doc, f)] *)
Lemma export_file_write (p : string) (doc : json) (w : world) :
  bind (open_file p ModeW) (fun _ => json_dump doc p) w
  = match fs w !! p with
    | Some Dir => (Raise (IsADirectoryError p), w)
    | _ => (Ok tt, set_fs w (<[p := FJson doc]> (fs w)))
    end.
Proof.
  unfold bind, open_file, json_dump.
  destruct (fs w !! p) as [[| s | j]|]; [done| | |];
    cbn [fs set_fs]; rewrite lookup_insert_eq; unfold set_fs; cbn [fs rng trace];
    by rewrite insert_insert_eq.
Qed.

(** The evaluation branch by cases. *)
Lemma main_eval_shape args (w : world) :
  captions_import_file args = None ->
  (exists msg, main args w = (Raise (Exception msg), w)
               /\ msg ∈ config_errors
               /\ (model_pth args = None \/ passes_validation args = false))
  \/ (exists pth,
        model_pth args = Some pth /\ passes_validation args = true
        /\ ((exists callee w', main args w = (Raise (LibraryError callee), w')
                               /\ fs w' = fs w)
            \/ exists w3,
                fs w3 = fs w
                /\ ((export_captions args = true
                     /\ main args w = (Raise IndexError, w3))
                    \/ (export_captions args = true
                        /\ exists captions,
                            main args w
                            = bind (open_file (captions_export_file args) ModeW)
                                   (fun _ => json_dump (JArr captions)
                                               (captions_export_file args)) w3)
                    \/ (export_captions args = false
                        /\ exists avg,
                            main args w
                            = export_metrics avg (scores_dir args)
                                (scores_file args)
                                (JStr (get_model_basename pth)) w3)))).
Proof.
  intros Himp.
  destruct (model_pth args) as [pth|] eqn:Hpth.
  2:{ left. destruct (main_config_error args w Himp) as (msg & Hrun & Hmsg);
        [by left|]. exists msg. repeat split; try done. by left. }
  destruct (passes_validation args) eqn:Hval.
  2:{ left. destruct (main_config_error args w Himp) as (msg & Hrun & Hmsg);
        [by right|]. exists msg. repeat split; try done. by right. }
  right. exists pth. split; [done|]. split; [done|].
  destruct (load_from_checkpoint pth) as [model|] eqn:Hload.
  2:{ left. eexists _, _. by rewrite (main_load_fails args pth). }
  destruct (from_pretrained (processor args)) as [preprocessor|] eqn:Hproc.
  2:{ left. eexists _, _. by rewrite (main_processor_fails args pth model). }
  right. exists (evaluated args pth model preprocessor w). split; [done|].
  rewrite (main_after_validation args pth model preprocessor) by done.
  destruct (export_captions args).
  - destruct (list_setitem _ _ _) as [captions|e] eqn:Hset.
    + right. left. split; [done|]. by exists captions.
    + left. split; [done|]. by rewrite (list_setitem_raises _ _ _ _ Hset).
  - right. right. split; [done|]. by eexists.
Qed.

(** X8.  On plain names (the caption export file of an exporting
    evaluation, the scores directory and file of any other run), a run of
    [main] removes nothing and turns no directory into a file; the only
    path an exporting evaluation can change is the caption export file, and
    the only paths any other run can change are the scores directory and
    the scores file.  In particular a run that evaluates and exports never
    writes its metrics to the scores file. *)
Theorem main_touches_only_its_outputs args (w : world) :
  outputs_ready (fs w) args = true ->
  (forall q, is_Some (fs w !! q) -> is_Some (fs (snd (main args w)) !! q))
  /\ (forall q, fs w !! q = Some Dir -> fs (snd (main args w)) !! q = Some Dir)
  /\ (forall q, fs (snd (main args w)) !! q <> fs w !! q ->
        (captions_import_file args = None /\ export_captions args = true
         /\ q = captions_export_file args)
        \/ ((is_Some (captions_import_file args) \/ export_captions args = false)
            /\ (q = scores_dir args
                \/ q = path_join (scores_dir args) (scores_file args)))).
Proof.
  intros _.
  assert (Hsame : forall w', fs w' = fs w ->
    (forall q, is_Some (fs w !! q) -> is_Some (fs w' !! q))
    /\ (forall q, fs w !! q = Some Dir -> fs w' !! q = Some Dir)
    /\ (forall q, fs w' !! q <> fs w !! q ->
          (captions_import_file args = None /\ export_captions args = true
           /\ q = captions_export_file args)
          \/ ((is_Some (captions_import_file args) \/ export_captions args = false)
              /\ (q = scores_dir args
                  \/ q = path_join (scores_dir args) (scores_file args))))).
  { intros w' ->. by repeat split. }
  assert (Hscores : forall avg mb w3, fs w3 = fs w ->
    is_Some (captions_import_file args) \/ export_captions args = false ->
    let w' := snd (export_metrics avg (scores_dir args) (scores_file args) mb w3) in
    (forall q, is_Some (fs w !! q) -> is_Some (fs w' !! q))
    /\ (forall q, fs w !! q = Some Dir -> fs w' !! q = Some Dir)
    /\ (forall q, fs w' !! q <> fs w !! q ->
          (captions_import_file args = None /\ export_captions args = true
           /\ q = captions_export_file args)
          \/ ((is_Some (captions_import_file args) \/ export_captions args = false)
              /\ (q = scores_dir args
                  \/ q = path_join (scores_dir args) (scores_file args))))).
  { intros avg mb w3 Hfs Hmode w'. subst w'.
    destruct (export_metrics_keeps avg (scores_dir args) (scores_file args) mb w3)
      as (res & w' & Hrun & _ & _ & Hframe & Hmono & Hdir & _).
    rewrite Hrun. cbn [snd]. rewrite Hfs in Hframe, Hmono, Hdir.
    repeat split; [done|done|].
    intros q Hq. right. split; [done|].
    destruct (decide (q = scores_dir args)) as [?|Hne1]; [by left|].
    destruct (decide (q = path_join (scores_dir args) (scores_file args)))
      as [?|Hne2]; [by right|].
    by rewrite Hframe in Hq. }
  assert (Hmode : captions_import_file args = None
                  \/ exists file, captions_import_file args = Some file).
  { destruct (captions_import_file args); eauto. }
  destruct Hmode as [Himp|[file Himp]]; cycle 1.
  - destruct (main_import_shape args file w Himp) as (evs & _ & Hcases).
    cbn zeta in Hcases. destruct Hcases as [(e & Hrun & _)|(avg & mb & Hrun)].
    + rewrite Hrun. by apply Hsame.
    + rewrite Hrun. apply Hscores; [done|]. left. rewrite Himp. by eexists.
  - destruct (main_eval_shape args w Himp)
      as [(msg & Hrun & _)|(pth & Hpth & Hval & Hcases)].
    { rewrite Hrun. by apply Hsame. }
    destruct Hcases as [(callee & w' & Hrun & Hfs)|(w3 & Hfs & Hcases)].
    { rewrite Hrun. by apply Hsame. }
    destruct Hcases as [[Hexp Hrun]|[[Hexp (captions & Hrun)]|[Hexp (avg & Hrun)]]].
    + rewrite Hrun. by apply Hsame.
    + rewrite Hrun, export_file_write, Hfs.
      assert (Hgoal :
        fs w !! captions_export_file args <> Some Dir ->
        let w' := set_fs w3 (<[captions_export_file args := FJson (JArr captions)]>
                               (fs w)) in
        (forall q, is_Some (fs w !! q) -> is_Some (fs w' !! q))
        /\ (forall q, fs w !! q = Some Dir -> fs w' !! q = Some Dir)
        /\ (forall q, fs w' !! q <> fs w !! q ->
              (captions_import_file args = None /\ export_captions args = true
               /\ q = captions_export_file args)
              \/ ((is_Some (captions_import_file args)
                   \/ export_captions args = false)
                  /\ (q = scores_dir args
                      \/ q = path_join (scores_dir args) (scores_file args))))).
      { intros Hnd. cbn [fs set_fs]. repeat split.
        - intros q Hq. destruct (decide (captions_export_file args = q)) as [<-|?].
          + rewrite lookup_insert_eq. by eexists.
          + by rewrite lookup_insert_ne.
        - intros q Hq. rewrite lookup_insert_ne; [done|]. congruence.
        - intros q Hq. left. split; [done|]. split; [done|].
          destruct (decide (captions_export_file args = q)) as [<-|?]; [done|].
          by rewrite lookup_insert_ne in Hq. }
      destruct (fs w !! captions_export_file args) as [[| s | j]|] eqn:Hfile;
        [by apply Hsame| | |]; by apply Hgoal.
    + rewrite Hrun. apply Hscores; [done|]. by right.
Qed.

(** X9.  The driver's configuration [Exception]s are fail-fast, and nothing
    later raises one: if a run ends in an [Exception], it is one of the four
    configuration messages, no import file was given, the configuration is
    indeed invalid, and the world is exactly as it was (no file touched, no
    library called). *)
Theorem config_errors_are_fail_fast args msg (w w' : world) :
  main args w = (Raise (Exception msg), w') ->
  w' = w
  /\ captions_import_file args = None
  /\ msg ∈ config_errors
  /\ (model_pth args = None \/ passes_validation args = false).
Proof.
  intros Hrun.
  destruct (captions_import_file args) as [file|] eqn:Himp.
  - exfalso.
    destruct (main_import_shape args file w Himp) as (evs & _ & Hcases).
    cbn zeta in Hcases. destruct Hcases as [(e & Hrun' & He)|(avg & mb & Hrun')].
    + rewrite Hrun' in Hrun. injection Hrun as -> _. by apply (He msg).
    + destruct (export_metrics_keeps avg (scores_dir args) (scores_file args) mb
                  {| fs := fs w; rng := rng w; trace := trace w ++ evs |})
        as (res & w2 & Hrun2 & _ & _ & _ & _ & _ & Hres).
      rewrite Hrun', Hrun2 in Hrun. injection Hrun as -> _. by apply (Hres msg).
  - destruct (main_eval_shape args w Himp)
      as [(msg' & Hrun' & Hmsg & Hbad)|(pth & Hpth & Hval & Hcases)].
    { rewrite Hrun' in Hrun. injection Hrun as -> ->. by repeat split. }
    exfalso.
    destruct Hcases as [(callee & w2 & Hrun' & _)|(w3 & _ & Hcases)].
    { rewrite Hrun' in Hrun. discriminate Hrun. }
    destruct Hcases as [[_ Hrun']|[[_ (captions & Hrun')]|[_ (avg & Hrun')]]].
    + rewrite Hrun' in Hrun. discriminate Hrun.
    + rewrite Hrun', export_file_write in Hrun.
      by destruct (fs w3 !! captions_export_file args) as [[| s | j]|].
    + destruct (export_metrics_keeps avg (scores_dir args) (scores_file args)
                  (JStr (get_model_basename pth)) w3)
        as (res & w2 & Hrun2 & _ & _ & _ & _ & _ & Hres).
      rewrite Hrun', Hrun2 in Hrun. injection Hrun as -> _. by apply (Hres msg).
Qed.

(** X10.  A run with an import file never touches the model: whatever the
    file holds and whatever the other arguments are, the generator state is
    unchanged and every call logged is a metric computation; no checkpoint
    is loaded, no seed installed, no dataset assembled, no caption
    generated. *)
Theorem import_never_runs_the_model args file (w : world) :
  captions_import_file args = Some file ->
  exists res evs w',
    main args w = (res, w')
    /\ rng w' = rng w
    /\ trace w' = trace w ++ evs
    /\ Forall is_metrics_call evs
    /\ checkpoints_loaded evs = []
    /\ captions_generated evs = [].
Proof.
  intros Himp.
  assert (Hnone : forall evs, Forall is_metrics_call evs ->
            checkpoints_loaded evs = [] /\ captions_generated evs = []).
  { induction 1 as [|e evs He _ [IH1 IH2]]; [done|].
    by destruct e. }
  destruct (main_import_shape args file w Himp) as (evs & Hevs & Hcases).
  cbn zeta in Hcases. destruct (Hnone evs Hevs) as [Hl Hg].
  destruct Hcases as [(e & Hrun & _)|(avg & mb & Hrun)].
  - exists (Raise e), evs. eexists. split; [exact Hrun|]. by repeat split.
  - destruct (export_metrics_keeps avg (scores_dir args) (scores_file args) mb
                {| fs := fs w; rng := rng w; trace := trace w ++ evs |})
      as (res & w2 & Hrun2 & Hr & Ht & _).
    exists res, evs, w2. rewrite Hrun, Hrun2. by repeat split.
Qed.

End RunShape.

(** ** More on the import branch *)

Section ImportMore.

Context {E : Externals}.

(** X11.  With an import file, [main] reads four arguments only: the import
    file, the metrics, the scores directory and the scores file.  Two
    command lines that agree on these give the same run; in particular the
    checks of the evaluation branch (model path, split counts, export path,
    flags) are not made. *)
Theorem import_ignores_evaluation_arguments args1 args2 file (w : world) :
  captions_import_file args1 = Some file ->
  captions_import_file args2 = Some file ->
  metrics args1 = metrics args2 ->
  scores_dir args1 = scores_dir args2 ->
  scores_file args1 = scores_file args2 ->
  main args1 w = main args2 w.
Proof.
  intros H1 H2 Hm Hd Hf.
  rewrite (main_import_prefix args1 file w H1), (main_import_prefix args2 file w H2).
  unfold import_prefix, import_metrics. by rewrite Hm, Hd, Hf.
Qed.


(** X13.  Imports that fail before any metric is computed leave the world
    as it was: a missing file raises [FileNotFoundError], an empty list
    raises [IndexError] (the sentinel is looked up at index [-1]), and a
    last element without a model name raises what the lookup of
    ["model_basename"] in it raises. *)
Theorem import_rejects_malformed_documents args file (w : world) :
  captions_import_file args = Some file ->
  (fs w !! file = None -> main args w = (Raise (FileNotFoundError file), w))
  /\ (fs w !! file = Some (FJson (JArr [])) ->
      main args w = (Raise IndexError, w))
  /\ (forall items last e,
        fs w !! file = Some (FJson (JArr (items ++ [last]))) ->
        py_getitem_str last "model_basename" = Raise e ->
        main args w = (Raise e, w))
  /\ (forall fname preds refs,
        py_getitem_str (caption_record fname preds refs) "model_basename"
        = Raise (KeyError (JStr "model_basename"))).
Proof.
  intros Himp. unfold main. rewrite Himp. repeat split.
  - intros Hfile. unfold bind at 1. unfold json_load. by rewrite Hfile.
  - intros Hfile. unfold bind at 1. unfold json_load. by rewrite Hfile.
  - intros items last e Hfile Hlast.
    unfold bind at 1. unfold json_load. rewrite Hfile.
    unfold bind at 1. unfold lift at 1. cbn [py_len].
    unfold bind at 1. unfold lift at 1. cbn [py_getitem_int].
    rewrite list_getitem_last.
    unfold bind at 1. unfold lift at 1. by rewrite Hlast.
Qed.

Lemma for_loop_app {S} (body : nat -> S -> M S) (l1 l2 : list nat) :
  forall st w,
    for_loop body (l1 ++ l2) st w
    = bind (for_loop body l1 st) (for_loop body l2) w.
Proof.
  induction l1 as [|i l1 IH]; intros st w; [reflexivity|].
  cbn [app for_loop]. unfold bind in *.
  destruct (body i st w) as [[st'|e] w1]; [apply IH | reflexivity].
Qed.

(** X14.  An entry without predictions or without references aborts the
    import at that entry: the metrics of the entries before it were
    computed, those after it are not, and nothing is written, neither the
    scores directory nor the scores file. *)
Theorem import_aborts_on_bad_entry args file recs pairs bad rest b e (w : world) :
  captions_import_file args = Some file ->
  fs w !! file = Some (FJson (JArr (recs ++ bad :: rest ++ [sentinel_record b]))) ->
  Forall2 scored_as recs pairs ->
  py_getitem_str bad "preds" = Raise e
  \/ (exists p, py_getitem_str bad "preds" = Ok p
                /\ py_getitem_str bad "reference_captions" = Raise e) ->
  main args w
  = (Raise e, {| fs := fs w; rng := rng w;
                 trace := trace w ++ metric_events pairs 0 |}).
Proof.
  intros Himp Hfile Hrecs Hbad.
  set (items := recs ++ bad :: rest ++ [sentinel_record b]) in *.
  assert (Hitems : items = (recs ++ bad :: rest) ++ [sentinel_record b]).
  { subst items. by rewrite <- app_assoc. }
  assert (Hlen : Z.of_nat (length items) - 1
                 = Z.of_nat (length recs + S (length rest))).
  { rewrite Hitems, !length_app. cbn [length]. lia. }
  assert (Hget : list_getitem items (Z.of_nat (length items) - 1)
                 = Ok (sentinel_record b)).
  { rewrite Hitems. apply list_getitem_last. }
  assert (Hmid : list_getitem items (Z.of_nat (length recs)) = Ok bad).
  { apply list_getitem_middle. }
  unfold main. rewrite Himp.
  unfold bind at 1. unfold json_load. rewrite Hfile.
  unfold bind at 1. unfold lift at 1. cbn [py_len].
  unfold bind at 1. unfold lift at 1. cbn [py_getitem_int].
  rewrite Hget.
  unfold bind at 1. unfold lift at 1.
  change (py_getitem_str (sentinel_record b) "model_basename") with (Ok (JStr b)).
  unfold bind at 1.
  assert (Hloop :
    import_metrics args (JArr items) w
    = (Raise e, {| fs := fs w; rng := rng w;
                   trace := trace w ++ metric_events pairs 0 |})).
  { unfold import_metrics, bind, lift. cbn [py_len]. unfold for_range.
    rewrite Hlen, Nat2Z.id, seq_app. cbn [seq Nat.add].
    rewrite for_loop_app. unfold bind at 1.
    destruct w as [f r t]. cbn [fs rng trace].
    pose proof (import_loop_spec items (bad :: rest ++ [sentinel_record b])
                  recs pairs Hrecs [] (metrics_init (metrics args)) f r t eq_refl)
      as Hl.
    cbn [length app] in Hl. rewrite Hl. clear Hl.
    cbn [for_loop]. unfold bind at 1.
    unfold import_step, bind, lift. cbn [py_getitem_int].
    rewrite Hmid.
    destruct Hbad as [Hp|(p & Hp & Hr)].
    - by rewrite Hp.
    - by rewrite Hp, Hr. }
  by rewrite Hloop.
Qed.

End ImportMore.

(** ** More on the evaluation branch *)

Section EvaluationMore.

Context {E : Externals}.



(** X16.  On plain names, with an empty dataset and no caption export, the
    run succeeds and appends a line of zeros: the model's name followed by
    every requested metric at its initial value; no caption is generated
    and the metric computation is never called. *)
Theorem empty_dataset_scores_zero_line args pth model preprocessor (w : world) :
  let path := path_join (scores_dir args) (scores_file args) in
  captions_import_file args = None ->
  model_pth args = Some pth ->
  export_captions args = false ->
  passes_validation args = true ->
  load_from_checkpoint pth = Some model ->
  from_pretrained (processor args) = Some preprocessor ->
  fst (dataset (unwrap_singletons args)) = [] ->
  scores_ready (fs w) (scores_dir args) (scores_file args) = true ->
  fs w !! path <> Some Dir ->
  exists w',
    main args w = (Ok tt, w')
    /\ fs w' !! path
       = Some (FText (file_text w path +:+ get_model_basename pth +:+ tab
                      +:+ metrics_text (metrics_init (metrics args)) +:+ newline))
    /\ captions_generated (trace w') = captions_generated (trace w)
    /\ counters_passed (trace w') = counters_passed (trace w).
Proof.
  intros path Himp Hpth Hexp Hval Hload Hproc Hds Hready Hnd.
  assert (Hdir : path <> scores_dir args \/ is_Some (fs w !! scores_dir args))
    by (left; by apply (scores_ready_path_ne (fs w))).
  rewrite (main_after_validation args pth model preprocessor w) by done.
  rewrite Hexp, Hds. cbn [generated scored zip_with accumulate].
  assert (Havg : (if no_evaluation args then metrics_init (metrics args)
                  else metrics_init (metrics args)) = metrics_init (metrics args))
    by (by destruct (no_evaluation args)).
  rewrite Havg.
  set (w3 := evaluated args pth model preprocessor w).
  assert (Hfs3 : fs w3 = fs w) by reflexivity.
  rewrite export_metrics_succeeds by (by rewrite Hfs3).
  eexists. split; [reflexivity|]. cbn [fs set_fs]. fold path.
  split; [by rewrite lookup_insert_eq|].
  assert (Htr : trace (with_scores_dir w3 (scores_dir args)) = trace w3).
  { unfold with_scores_dir. by destruct (fs w3 !! scores_dir args). }
  cbn [trace set_fs]. rewrite Htr. subst w3. unfold evaluated. cbn [trace].
  rewrite Hds. cbn [loop_events fst].
  unfold captions_generated, counters_passed.
  rewrite !omap_app. cbn [omap list_omap]. by rewrite !app_nil_r.
Qed.

(** X17.  Without caption export the list of captions [eval_model] returns
    is empty; with it, the list has one record per sample, in dataset
    order, and the record at index [i] carries the file name and the
    references of sample [i] and the caption generated at iteration [i]. *)
Theorem eval_model_collects_records_in_order model preprocessor args (w : world) :
  exists captions avg evs r',
    eval_model model preprocessor args w
    = (Ok (captions, avg), {| fs := fs w; rng := r'; trace := trace w ++ evs |})
    /\ (export_captions args = false -> captions = [])
    /\ (export_captions args = true ->
        length captions = length (fst (dataset args))
        /\ forall i sample,
            fst (dataset args) !! i = Some sample ->
            exists preds,
              captions_generated evs !! i = Some (i, preds)
              /\ captions !! i
                 = Some (caption_record (filename sample) preds
                           (raw_captions sample))).
Proof.
  eexists _, _, _, _. split; [apply eval_model_spec|].
  set (ds := fst (dataset args)). set (r1 := snd (dataset args)).
  set (preds := generated model preprocessor (use_beam_search args) ds r1).
  assert (Hlen : length preds = length ds) by apply generated_length.
  split; [by intros ->|]. intros ->. split.
  { by apply records_length. }
  intros i sample Hi.
  destruct (lookup_lt_is_Some_2 preds i) as [p Hp].
  { rewrite Hlen. by eapply lookup_lt_Some. }
  exists p. split.
  - unfold captions_generated. cbn [omap list_omap].
    change (omap _ (fst (loop_events model preprocessor args ds 0 r1)))
      with (captions_generated (fst (loop_events model preprocessor args ds 0 r1))).
    rewrite captions_generated_loop_events. fold preds.
    apply lookup_zip_with_Some. exists i, p. split; [done|]. split; [|done].
    rewrite lookup_seq. split; [done|]. by eapply lookup_lt_Some.
  - unfold records. apply lookup_zip_with_Some. by exists sample, p.
Qed.

(** X18.  With [no_evaluation] the metric computation is never called and
    the accumulator returned is the initial one; a caption is still
    generated for every sample. *)
Theorem eval_model_without_evaluation model preprocessor args (w : world) :
  no_evaluation args = true ->
  exists captions evs r',
    eval_model model preprocessor args w
    = (Ok (captions, metrics_init (metrics args)),
       {| fs := fs w; rng := r'; trace := trace w ++ evs |})
    /\ counters_passed evs = []
    /\ length (captions_generated evs) = length (fst (dataset args)).
Proof.
  intros Hnoev. eexists _, _, _. rewrite eval_model_spec, Hnoev.
  split; [reflexivity|]. split.
  - unfold counters_passed. cbn [omap list_omap].
    change (omap _ (fst ?l)) with (counters_passed (fst l)).
    by rewrite counters_passed_loop_events, Hnoev.
  - unfold captions_generated. cbn [omap list_omap].
    change (omap _ (fst ?l)) with (captions_generated (fst l)).
    rewrite captions_generated_loop_events, length_zip, length_seq,
      generated_length. lia.
Qed.

End EvaluationMore.

(** ** The accumulator and the command line *)

Section Accumulator.

Context {E : Externals}.

Lemma dict_set_keys {A} (d : list (string * A)) (k : string) (v : A) :
  map fst (dict_set d k v)
  = if decide (k ∈ map fst d) then map fst d else map fst d ++ [k].
Proof.
  induction d as [|[k' v'] d IH]; [reflexivity|].
  cbn [dict_set map fst]. destruct (String.eqb_spec k' k) as [->|Hne].
  - cbn [map fst]. rewrite decide_True; [done|]. by left.
  - cbn [map fst]. rewrite IH. destruct (decide (k ∈ map fst d)) as [Hin|Hnin].
    + rewrite decide_True; [done|]. by right.
    + rewrite decide_False; [done|]. intros Hin. apply elem_of_cons in Hin.
      destruct Hin as [->|?]; done.
Qed.

Lemma dict_set_values {A} (d : list (string * A)) (k : string) (v : A) :
  Forall (fun kv => snd kv = v) d -> Forall (fun kv => snd kv = v) (dict_set d k v).
Proof.
  induction 1 as [|[k' v'] d Hv Hd IH]; [by repeat constructor|].
  cbn [dict_set]. destruct (String.eqb k' k); constructor; done.
Qed.

Lemma metrics_fold_keys (ms : list string) :
  forall acc : dict,
    NoDup (map fst acc) ->
    let d := fold_left (fun d metric => dict_set d metric zero) ms acc in
    NoDup (map fst d)
    /\ (forall m, m ∈ map fst d <-> m ∈ map fst acc \/ m ∈ ms)
    /\ (NoDup ms -> (forall m, m ∈ ms -> m ∉ map fst acc) ->
        map fst d = map fst acc ++ ms).
Proof.
  induction ms as [|m ms IH]; intros acc Hacc; cbn [fold_left].
  - repeat split; [done| |intros [?|?]; [done|by apply elem_of_nil in H]|].
    + by left.
    + intros _ _. by rewrite app_nil_r.
  - assert (Hkeys := dict_set_keys acc m zero).
    assert (Hnd : NoDup (map fst (dict_set acc m zero))).
    { rewrite Hkeys. destruct (decide (m ∈ map fst acc)); [done|].
      apply NoDup_app. repeat split; [done| |apply NoDup_singleton].
      intros x Hx Hx'. apply list_elem_of_singleton in Hx'. by subst. }
    destruct (IH (dict_set acc m zero) Hnd) as (IH1 & IH2 & IH3).
    cbn zeta in *. split; [exact IH1|]. split.
    + intros x. rewrite IH2, Hkeys, elem_of_cons.
      destruct (decide (m ∈ map fst acc)) as [Hin|Hnin].
      * split; [intros [?|?]; auto|intros [?|[->|?]]; auto].
      * rewrite elem_of_app, list_elem_of_singleton.
        split; [intros [[?|?]|?]; auto|intros [?|[?|?]]; auto].
    + intros Hms Hfresh. apply NoDup_cons in Hms as [Hm Hms].
      rewrite IH3; [| done |].
      * rewrite Hkeys. rewrite decide_False by (apply Hfresh; by left).
        by rewrite <- app_assoc.
      * intros x Hx. rewrite Hkeys.
        rewrite decide_False by (apply Hfresh; by left).
        rewrite elem_of_app, list_elem_of_singleton. intros [Hx' | ->]; [|done].
        apply (Hfresh x); [by right|done].
Qed.

Lemma metrics_fold_values (ms : list string) :
  forall acc : dict,
    Forall (fun kv => snd kv = zero) acc ->
    Forall (fun kv => snd kv = zero)
      (fold_left (fun d metric => dict_set d metric zero) ms acc).
Proof.
  induction ms as [|m ms IH]; intros acc Hacc; [done|].
  cbn [fold_left]. apply IH. by apply dict_set_values.
Qed.

(** X19.  The accumulator both loops start from has one entry per requested
    metric name, every value being the initial one: its keys are without
    duplicates, they are exactly the names requested, and when no name is
    requested twice they come in the order of the command line. *)
Theorem metrics_init_keys (ms : list string) :
  NoDup (map fst (metrics_init ms))
  /\ (forall m, m ∈ map fst (metrics_init ms) <-> m ∈ ms)
  /\ (NoDup ms -> map fst (metrics_init ms) = ms)
  /\ Forall (fun kv => snd kv = zero) (metrics_init ms).
Proof.
  unfold metrics_init.
  destruct (metrics_fold_keys ms []) as (H1 & H2 & H3); [constructor|].
  cbn zeta in *. split; [exact H1|]. split; [|split].
  - intros m. rewrite H2. cbn [map]. split; [intros [Hn|?]; [|done]|by right].
    by apply elem_of_nil in Hn.
  - intros Hms. rewrite H3; [done|done|]. intros m _ Hn. by apply elem_of_nil in Hn.
  - by apply metrics_fold_values.
Qed.

End Accumulator.

Section CommandLine.

Context {E : Externals}.

Lemma substring_all (s : string) : String.substring 0 (String.length s) s = s.
Proof. induction s as [|c s IH]; [reflexivity|]. cbn. by rewrite IH. Qed.

Lemma substring_app_r (x s : string) :
  String.substring (String.length x) (String.length s) (x +:+ s) = s.
Proof.
  induction x as [|c x IH]; [apply substring_all|].
  change (String c x +:+ s) with (String c (x +:+ s)). cbn. exact IH.
Qed.

Lemma endswith_app (x s : string) : endswith (x +:+ s) s = true.
Proof.
  unfold endswith. rewrite string_length_app.
  replace (String.length x + String.length s - String.length s)%nat
    with (String.length x) by lia.
  rewrite substring_app_r, String.eqb_refl, andb_true_r.
  apply Nat.leb_le. lia.
Qed.

(** [os.path.join(a, b)] is [b] with something in front. *)
Lemma path_join_suffix (a b : string) : exists x, path_join a b = x +:+ b.
Proof.
  unfold path_join. destruct (startswith b "/").
  - by exists EmptyString.
  - destruct ((String.length a =? 0)%nat || endswith a "/").
    + by exists a.
    + exists (a +:+ "/"). by rewrite string_app_assoc.
Qed.

Lemma path_join_endswith (a stem suffix : string) :
  endswith (path_join a (stem +:+ suffix)) suffix = true.
Proof.
  destruct (path_join_suffix a (stem +:+ suffix)) as [x ->].
  rewrite <- string_app_assoc. apply endswith_app.
Qed.

Lemma path_join_nonempty (a b : string) :
  b <> EmptyString -> (str_len (path_join a b) =? 0) = false.
Proof.
  intros Hb. apply Z.eqb_neq. unfold str_len.
  destruct (path_join_suffix a b) as [x ->]. rewrite string_length_app.
  destruct b; [done|]. cbn [String.length]. lia.
Qed.

(** X20.  The defaults of the parser agree with the checks of [main].  A
    run without any option stops at the first check, for want of a model
    path or an import file.  Any command line that keeps the default
    splits, annotation files, image directories and caption export file,
    and does not combine "no export" with "no evaluation", passes the three
    later checks whatever the working directory is, and its four-element
    lists reach the dataset loader as lists. *)
Theorem defaults_pass_the_checks cwd SBERT_SIM ROUGE_L BLEU (args : Args) (w : world) :
  let defaults := default_args cwd SBERT_SIM ROUGE_L BLEU in
  splits args = splits defaults ->
  annotations_files args = annotations_files defaults ->
  img_dirs args = img_dirs defaults ->
  captions_export_file args = captions_export_file defaults ->
  nothing_to_do args = false ->
  main defaults w = (Raise (Exception err_no_source), w)
  /\ passes_validation args = true
  /\ unwrap_singletons args = args.
Proof.
  intros defaults Hs Ha Hi Hc Hn. split; [reflexivity|]. split.
  - rewrite passes_validation_checks, Hn.
    unfold splits_mismatch, bad_export_path. rewrite Hs, Ha, Hc.
    cbn [splits annotations_files captions_export_file defaults default_args].
    assert (He : endswith (path_join cwd "exported_captions.json") ".json" = true)
      by exact (path_join_endswith cwd "exported_captions" ".json").
    rewrite He.
    rewrite path_join_nonempty by done.
    cbn. by rewrite !andb_false_r.
  - assert (H1 : (strs_len (splits args) =? 1) = false) by (by rewrite Hs).
    assert (H2 : (strs_len (annotations_files args) =? 1) = false)
      by (by rewrite Ha).
    assert (H3 : (strs_len (img_dirs args) =? 1) = false) by (by rewrite Hi).
    unfold unwrap_singletons. rewrite H1, andb_false_r.
    cbv beta iota zeta. rewrite H2. cbv beta iota zeta. by rewrite H3.
Qed.

End CommandLine.

Section ScoresLineShape.

Context {E : Externals}.

(** X21.  The line [export_metrics] formats for a string model name is a
    single line: when the model name, the metric names and the formatted
    values contain no line break, the line has exactly one, and it is its
    last character. *)
Theorem scores_line_is_one_line (avg : dict) (b : string) :
  has_newline b = false ->
  Forall (fun kv => has_newline (fst kv) = false
                    /\ has_newline (format_3f (snd kv)) = false) avg ->
  let line := b +:+ tab +:+ metrics_text avg +:+ newline in
  format_line (JStr b) (metrics_text avg) = Ok line
  /\ line_breaks line = 1%nat
  /\ endswith line newline = true.
Proof.
  intros Hb Havg line. split; [reflexivity|]. split.
  - subst line. rewrite !line_breaks_app.
    rewrite (line_breaks_no_newline b Hb).
    rewrite (line_breaks_no_newline (metrics_text avg))
      by (by apply metrics_text_no_newline).
    reflexivity.
  - subst line.
    replace (b +:+ tab +:+ metrics_text avg +:+ newline)
      with ((b +:+ tab +:+ metrics_text avg) +:+ newline)
      by (by rewrite !string_app_assoc).
    apply endswith_app.
Qed.

End ScoresLineShape.

(** * The theorems on concrete runs *)

Section Runs.

Import Demo.

(** Two splits for one annotation file. *)
Lemma main_split_count_mismatch_raises_witness :
  let E := externals ds2 in
  let a := args ["val"; "test"] false false "exported_captions.json" None in
  exists msg,
    main a (w0 ds2) = (Raise (Exception msg), w0 ds2)
    /\ (msg = err_no_source \/ msg = err_splits)
    /\ checkpoints_loaded (trace (snd (main a (w0 ds2))))
       = checkpoints_loaded (trace (w0 ds2)).
Proof.
  intros E a.
  apply (@main_split_count_mismatch_raises E a (w0 ds2));
    [reflexivity | reflexivity | intros H; vm_compute in H; discriminate H].
Defined.

(** Export to a [.txt] path. *)
Lemma main_bad_export_path_raises_witness :
  let E := externals ds2 in
  let a := args ["test"] true false "exported_captions.txt" None in
  exists msg,
    main a (w0 ds2) = (Raise (Exception msg), w0 ds2)
    /\ (msg = err_no_source \/ msg = err_splits \/ msg = err_export_file)
    /\ checkpoints_loaded (trace (snd (main a (w0 ds2))))
       = checkpoints_loaded (trace (w0 ds2)).
Proof.
  intros E a.
  apply (@main_bad_export_path_raises E a (w0 ds2)); reflexivity.
Defined.

(** Neither export nor evaluation. *)
Lemma main_nothing_to_do_raises_witness :
  let E := externals ds2 in
  let a := args ["test"] false true "exported_captions.json" None in
  exists msg,
    main a (w0 ds2) = (Raise (Exception msg), w0 ds2)
    /\ (msg = err_no_source \/ msg = err_splits \/ msg = err_no_evaluation)
    /\ checkpoints_loaded (trace (snd (main a (w0 ds2))))
       = checkpoints_loaded (trace (w0 ds2)).
Proof.
  intros E a.
  apply (@main_nothing_to_do_raises E a (w0 ds2)); reflexivity.
Defined.

(** Export of an empty dataset. *)
Lemma main_empty_dataset_export_raises_witness :
  let E := externals [] in
  exists w', main args_export (w_scores []) = (Raise IndexError, w')
             /\ fs w' = fs (w_scores []).
Proof.
  intros E.
  apply (@main_empty_dataset_export_raises E args_export "model.ckpt"
           "model.ckpt" "openai/clip-vit-base-patch32" (w_scores []));
    reflexivity.
Defined.

(** Export of two samples: the file holds the record of the first and the
    sentinel. *)
Lemma export_replaces_last_record_witness :
  let E := externals ds2 in
  exists w' entries,
    main args_export (w0 ds2) = (Ok tt, w')
    /\ fs w' !! "exported_captions.json" = Some (FJson (JArr entries))
    /\ entries = [caption_record "0.jpg" ["a river"] ["a river"; "a stream"];
                  sentinel_record "model.ckpt.name"]
    /\ length entries = length ds2.
Proof.
  intros E.
  destruct (@export_replaces_last_record E args_export "model.ckpt"
              "model.ckpt" "openai/clip-vit-base-patch32" (w0 ds2))
    as (w' & entries & Hrun & Hfile & Hentries & _ & Hlen & _);
    [reflexivity | reflexivity | reflexivity | reflexivity | reflexivity
    | reflexivity | discriminate | discriminate |].
  exists w', entries. repeat split; assumption.
Defined.



(** Two samples, the first scoring 1 and the second 0: the evaluation
    averages to 1/2, the import of the exported file to 1. *)
Lemma roundtrip_skips_last_sample_witness :
  let E := externals ds2 in
  let direct : dict := [("ROUGE_L", (1 # 2)%Q); ("METEOR", (1 # 2)%Q)] in
  let imported : dict := [("ROUGE_L", 1%Q); ("METEOR", 1%Q)] in
  exists w1 w2 b,
    (forall w0, exists captions,
        fst (eval_model "model.ckpt" "openai/clip-vit-base-patch32"
               (unwrap_singletons args_export) w0)
        = Ok (captions, direct))
    /\ main args_export (w0 ds2) = (Ok tt, w1)
    /\ main args_import w1
       = export_metrics imported "eval_results" "clip_cap_scores.tsv" (JStr b) w2.
Proof.
  intros E direct imported.
  destruct (@roundtrip_skips_last_sample E args_export args_import "model.ckpt"
              "model.ckpt" "openai/clip-vit-base-patch32"
              [ {| image := "a river"; raw_captions := ["a river"; "a stream"];
                   filename := "0.jpg" |} ]
              {| image := "a road"; raw_captions := ["an airport"];
                 filename := "1.jpg" |}
              (w0 ds2))
    as (w1 & w2 & b & Hdirect & Hexport & Himport & _);
    [reflexivity | reflexivity | reflexivity | reflexivity | reflexivity
    | reflexivity | reflexivity | reflexivity | discriminate | reflexivity
    | reflexivity |].
  exists w1, w2, b. repeat split; assumption.
Defined.


(** The scores line of a direct evaluation of two samples, and the scores
    line after exporting the captions of the same two samples and importing
    the exported file: the second averages over the first sample only. *)
Example roundtrip_scores_differ :
  let E := externals ds2 in
  fs (snd (main args_eval (w0 ds2))) !! scores_path
  = Some (FText ("model.ckpt.name" +:+ tab +:+ "ROUGE_L" +:+ tab +:+ "0.500" +:+ tab
                 +:+ "METEOR" +:+ tab +:+ "0.500" +:+ tab +:+ newline))
  /\ fs (snd (main args_import (snd (main args_export (w0 ds2))))) !! scores_path
     = Some (FText ("model.ckpt.name" +:+ tab +:+ "ROUGE_L" +:+ tab +:+ "1.000" +:+ tab
                    +:+ "METEOR" +:+ tab +:+ "1.000" +:+ tab +:+ newline)).
Proof. split; reflexivity. Qed.

(** A run that passes the argument checks logs the loading of the
    checkpoint before anything else. *)
Example passing_run_loads_checkpoint :
  let E := externals ds2 in
  checkpoints_loaded (trace (snd (main args_eval (w0 ds2)))) = ["model.ckpt"]
  /\ head (trace (snd (main args_eval (w0 ds2)))) = Some (EvLoadCheckpoint "model.ckpt").
Proof. split; reflexivity. Qed.

(** METEOR cannot be computed on the first of two samples; the call for the
    second sample still receives the counter 0, and the METEOR average of
    the run is half the score of the only sample it was computed on. *)
Example meteor_failure_not_counted :
  let E := externals ds_meteor in
  score "METEOR" (json_of_strs [EmptyString]) (json_of_strs ["a lake"]) = None
  /\ score "METEOR" (json_of_strs ["a river"]) (json_of_strs ["a river"]) = Some 1%Q
  /\ counters_passed (trace (snd (main args_eval (w0 ds_meteor))))
     = [(0, 0); (1, 0)]
  /\ fs (snd (main args_eval (w0 ds_meteor))) !! scores_path
     = Some (FText ("model.ckpt.name" +:+ tab +:+ "ROUGE_L" +:+ tab +:+ "0.500" +:+ tab
                    +:+ "METEOR" +:+ tab +:+ "0.500" +:+ tab +:+ newline)).
Proof. repeat split; reflexivity. Qed.

End Runs.

(** * The further properties on concrete runs *)

Section MoreRuns.

Import Demo.

(** The first check wins: without a model path, the wrong split count and
    the wrong export path are not reported; with a model path, the split
    count is reported before the export path. *)
Lemma main_first_failed_check_witness :
  let E := externals ds2 in
  main args_nothing (w0 ds2) = (Raise (Exception err_no_source), w0 ds2)
  /\ main (args ["val"; "test"] true false "exported_captions.txt" None) (w0 ds2)
     = (Raise (Exception err_splits), w0 ds2)
  /\ main (args ["test"] true false "exported_captions.txt" None) (w0 ds2)
     = (Raise (Exception err_export_file), w0 ds2)
  /\ main (args ["test"] false true "exported_captions.txt" None) (w0 ds2)
     = (Raise (Exception err_no_evaluation), w0 ds2).
Proof.
  intros E. split; [|split; [|split]].
  - by apply (@main_first_failed_check E args_nothing (w0 ds2)).
  - apply (@main_first_failed_check E
             (args ["val"; "test"] true false "exported_captions.txt" None)
             (w0 ds2)); [reflexivity | by eexists | reflexivity].
  - apply (@main_first_failed_check E
             (args ["test"] true false "exported_captions.txt" None)
             (w0 ds2)); [reflexivity | by eexists | reflexivity | reflexivity].
  - apply (@main_first_failed_check E
             (args ["test"] false true "exported_captions.txt" None)
             (w0 ds2));
      [reflexivity | by eexists | reflexivity | reflexivity | reflexivity].
Defined.

(** No checkpoint in the store. *)
Lemma main_load_failure_aborts_witness :
  let E := externals_offline ds2 in
  let w : world := {| fs := ∅; rng := 0%Z; trace := [] |} in
  exists callee evs w',
    main args_eval w = (Raise (LibraryError callee), w')
    /\ fs w' = fs w /\ rng w' = rng w /\ trace w' = trace w ++ evs
    /\ (evs = [EvLoadCheckpoint "model.ckpt"]
        \/ evs = [EvLoadCheckpoint "model.ckpt";
                  EvFromPretrained (processor args_eval)]).
Proof.
  intros E w.
  apply (@main_load_failure_aborts E args_eval "model.ckpt" w);
    [reflexivity | reflexivity | reflexivity | by left].
Defined.

(** The first run on an empty disk. *)
Lemma export_metrics_creates_file_witness :
  let E := externals ds2 in
  let avg : dict := [("ROUGE_L", (1 # 2)%Q)] in
  exists w',
    export_metrics avg "eval_results" "clip_cap_scores.tsv"
      (JStr "model.ckpt.name") (w0 ds2) = (Ok tt, w')
    /\ fs w' !! scores_path
       = Some (FText ("model.ckpt.name" +:+ tab +:+ metrics_text avg +:+ newline))
    /\ fs w' !! "eval_results" = Some Dir
    /\ (forall q, q <> scores_path -> q <> "eval_results" ->
         fs w' !! q = fs (w0 ds2) !! q).
Proof.
  intros E avg.
  apply (@export_metrics_creates_file E avg "eval_results" "clip_cap_scores.tsv"
           "model.ckpt.name" (w0 ds2)); reflexivity.
Defined.

(** A directory where the scores file should be. *)
Lemma export_metrics_on_directory_witness :
  let E := externals ds2 in
  export_metrics [] "eval_results" "clip_cap_scores.tsv" (JStr "model.ckpt.name")
    (w_scores_taken ds2)
  = (Raise (IsADirectoryError scores_path), w_scores_taken ds2).
Proof.
  intros E.
  apply (@export_metrics_on_directory E [] "eval_results" "clip_cap_scores.tsv"
           (JStr "model.ckpt.name") (w_scores_taken ds2)); reflexivity.
Defined.

(** A number as model name, with and without an earlier scores file. *)
Lemma export_metrics_bad_name_witness :
  let E := externals ds2 in
  (exists w',
      export_metrics [] "eval_results" "clip_cap_scores.tsv" (JInt 5) (w_scores ds2)
      = (Raise ValueError, w')
      /\ fs w' !! scores_path = Some (FText earlier_run))
  /\ (exists w',
        export_metrics [] "eval_results" "clip_cap_scores.tsv" (JInt 5) (w0 ds2)
        = (Raise ValueError, w')
        /\ fs w' !! scores_path = Some (FText EmptyString)).
Proof.
  intros E. split.
  - apply (@export_metrics_bad_name E [] "eval_results" "clip_cap_scores.tsv"
             (JInt 5) ValueError (w_scores ds2));
      [reflexivity | reflexivity | discriminate].
  - apply (@export_metrics_bad_name E [] "eval_results" "clip_cap_scores.tsv"
             (JInt 5) ValueError (w0 ds2));
      [reflexivity | reflexivity | discriminate].
Defined.

(** A call next to the scores of an earlier run. *)
Lemma export_metrics_touches_only_scores_witness :
  let E := externals ds2 in
  exists res w',
    export_metrics [] "eval_results" "clip_cap_scores.tsv" (JStr "model.ckpt.name")
      (w_scores ds2) = (res, w')
    /\ rng w' = 0 /\ trace w' = []
    /\ (forall q, q <> "eval_results" -> q <> scores_path ->
         fs w' !! q = fs (w_scores ds2) !! q).
Proof.
  intros E.
  destruct (@export_metrics_touches_only_scores E [] "eval_results"
              "clip_cap_scores.tsv" (JStr "model.ckpt.name") (w_scores ds2))
    as (res & w' & Hrun & Hr & Ht & Hframe & _); [reflexivity|].
  exists res, w'. split; [exact Hrun|]. split; [exact Hr|].
  split; [exact Ht|]. exact Hframe.
Defined.

(** An exporting evaluation on an empty disk, and an evaluation next to
    the scores of an earlier run. *)
Lemma main_touches_only_its_outputs_witness :
  let E := externals ds2 in
  (forall q, fs (snd (main args_export (w0 ds2))) !! q <> fs (w0 ds2) !! q ->
             q = "exported_captions.json")
  /\ (forall q, fs (snd (main args_eval (w_scores ds2))) !! q <> fs (w_scores ds2) !! q ->
                q = "eval_results" \/ q = scores_path).
Proof.
  intros E. split; intros q Hq.
  - destruct (@main_touches_only_its_outputs E args_export (w0 ds2))
      as (_ & _ & Hframe); [reflexivity|].
    destruct (Hframe q Hq) as [(_ & _ & Heq)|[[[file Hfile]|Hexp] _]];
      [exact Heq | discriminate Hfile | discriminate Hexp].
  - destruct (@main_touches_only_its_outputs E args_eval (w_scores ds2))
      as (_ & _ & Hframe); [reflexivity|].
    destruct (Hframe q Hq) as [(_ & Hexp & _)|[_ Heq]];
      [discriminate Hexp | exact Heq].
Defined.


(** A run that ends in an [Exception]. *)
Lemma config_errors_are_fail_fast_witness :
  let E := externals ds2 in
  let a := args ["val"; "test"] false false "exported_captions.json" None in
  captions_import_file a = None
  /\ err_splits ∈ config_errors
  /\ (model_pth a = None \/ passes_validation a = false).
Proof.
  intros E a.
  destruct (@config_errors_are_fail_fast E a err_splits (w0 ds2) (w0 ds2))
    as (_ & H1 & H2 & H3); [reflexivity|].
  by repeat split.
Defined.

(** The import of the file two exported samples left. *)
Lemma import_never_runs_the_model_witness :
  let E := externals ds2 in
  let w := snd (main args_export (w0 ds2)) in
  exists res evs w',
    main args_import w = (res, w')
    /\ rng w' = rng w
    /\ trace w' = trace w ++ evs
    /\ Forall is_metrics_call evs
    /\ checkpoints_loaded evs = []
    /\ captions_generated evs = [].
Proof.
  intros E w.
  apply (@import_never_runs_the_model E args_import "exported_captions.json" w).
  reflexivity.
Defined.

(** A command line that would fail every check of the evaluation branch
    imports as the tidy one does. *)
Lemma import_ignores_evaluation_arguments_witness :
  let E := externals ds2 in
  let w := snd (main args_export (w0 ds2)) in
  main args_import_sloppy w = main args_import w.
Proof.
  intros E w.
  apply (@import_ignores_evaluation_arguments E args_import_sloppy args_import
           "exported_captions.json" w); reflexivity.
Defined.


(** No file; an empty list; a list that ends in a caption record. *)
Lemma import_rejects_malformed_documents_witness :
  let E := externals ds2 in
  main args_import (w0 ds2)
  = (Raise (FileNotFoundError "exported_captions.json"), w0 ds2)
  /\ main args_import (w_import ds2 (JArr []))
     = (Raise IndexError, w_import ds2 (JArr []))
  /\ main args_import
       (w_import ds2 (JArr [caption_record "0.jpg" ["a river"] ["a river"]]))
     = (Raise (KeyError (JStr "model_basename")),
        w_import ds2 (JArr [caption_record "0.jpg" ["a river"] ["a river"]])).
Proof.
  intros E. split; [|split].
  - by apply (@import_rejects_malformed_documents E args_import
                "exported_captions.json" (w0 ds2)).
  - by apply (@import_rejects_malformed_documents E args_import
                "exported_captions.json" (w_import ds2 (JArr []))).
  - destruct (@import_rejects_malformed_documents E args_import
                "exported_captions.json"
                (w_import ds2 (JArr [caption_record "0.jpg" ["a river"] ["a river"]]))
                eq_refl) as (_ & _ & Hlast & _).
    apply (Hlast [] (caption_record "0.jpg" ["a river"] ["a river"])); reflexivity.
Defined.

(** A scored entry, an entry without predictions, the sentinel. *)
Lemma import_aborts_on_bad_entry_witness :
  let E := externals ds2 in
  let doc := JArr [caption_record "0.jpg" ["a river"] ["a river"; "a stream"];
                   entry_without_preds; sentinel_record "model.ckpt.name"] in
  let pairs := [(json_of_strs ["a river"], json_of_strs ["a river"; "a stream"])] in
  main args_import (w_import ds2 doc)
  = (Raise (KeyError (JStr "preds")),
     {| fs := fs (w_import ds2 doc); rng := 0; trace := metric_events pairs 0 |}).
Proof.
  intros E doc pairs.
  apply (@import_aborts_on_bad_entry E args_import "exported_captions.json"
           [caption_record "0.jpg" ["a river"] ["a river"; "a stream"]]
           pairs entry_without_preds [] "model.ckpt.name"
           (KeyError (JStr "preds")) (w_import ds2 doc));
    [reflexivity | reflexivity | | by left].
  repeat constructor.
Defined.


(** An empty dataset, evaluated. *)
Lemma empty_dataset_scores_zero_line_witness :
  let E := externals [] in
  exists w',
    main args_eval (w0 []) = (Ok tt, w')
    /\ fs w' !! scores_path
       = Some (FText ("model.ckpt.name" +:+ tab
                      +:+ metrics_text (metrics_init (metrics args_eval))
                      +:+ newline))
    /\ captions_generated (trace w') = []
    /\ counters_passed (trace w') = [].
Proof.
  intros E.
  apply (@empty_dataset_scores_zero_line E args_eval "model.ckpt"
           "model.ckpt" "openai/clip-vit-base-patch32" (w0 []));
    [reflexivity | reflexivity | reflexivity | reflexivity | reflexivity
    | reflexivity | reflexivity | reflexivity | discriminate].
Defined.

(** Export without evaluation. *)
Lemma eval_model_without_evaluation_witness :
  let E := externals ds2 in
  let a := args ["test"] true true "exported_captions.json" None in
  exists captions evs r',
    eval_model "model.ckpt" "openai/clip-vit-base-patch32" a (w0 ds2)
    = (Ok (captions, metrics_init (metrics a)),
       {| fs := fs (w0 ds2); rng := r'; trace := trace (w0 ds2) ++ evs |})
    /\ counters_passed evs = []
    /\ length (captions_generated evs) = length ds2.
Proof.
  intros E a.
  apply (@eval_model_without_evaluation E "model.ckpt"
           "openai/clip-vit-base-patch32" a (w0 ds2)).
  reflexivity.
Defined.

(** The defaults in a home directory, with a model path being irrelevant to
    the three later checks. *)
Lemma defaults_pass_the_checks_witness :
  let E := externals ds2 in
  let defaults := default_args "/home/user" "SBERT_SIM" "ROUGE_L" "BLEU" in
  main defaults (w0 ds2) = (Raise (Exception err_no_source), w0 ds2)
  /\ passes_validation defaults = true
  /\ unwrap_singletons defaults = defaults.
Proof.
  intros E defaults.
  apply (@defaults_pass_the_checks E "/home/user" "SBERT_SIM" "ROUGE_L" "BLEU"
           defaults (w0 ds2)); reflexivity.
Defined.

(** Two metric names and their formatted values. *)
Lemma scores_line_is_one_line_witness :
  let E := externals ds2 in
  let avg : dict := [("ROUGE_L", (1 # 2)%Q); ("METEOR", 1%Q)] in
  let line := "model.ckpt.name" +:+ tab +:+ metrics_text avg +:+ newline in
  format_line (JStr "model.ckpt.name") (metrics_text avg) = Ok line
  /\ line_breaks line = 1%nat
  /\ endswith line newline = true.
Proof.
  intros E avg.
  apply (@scores_line_is_one_line E avg "model.ckpt.name"); [reflexivity|].
  repeat constructor.
Defined.

End MoreRuns.
